(** * Cordova build-configuration step: a shallow embedding of main.go

    The step reads nine inputs from the environment, resolves the Android
    keystore (a local [file://] path or a download), assembles a two-section
    document, prints it, writes it as [build.json] into a scratch directory and
    hands the path over through envman.

    [src/main.go] holds two texts of the program.  The first one (lines 1-229)
    reads the inputs with [os.Getenv] and checks them with
    [ConfigsModel.validate]; the second one (lines 230-429) reads them with
    [stepconf.Parse] and masks the two passwords in the printed document.
    They are embedded as [V1] and [V2]; what they share ([download], the
    Android and iOS blocks of [main], the types) is embedded once.

    Strings are Go strings: sequences of bytes ([string] of [ascii]).  Go maps
    are [gmap]s, a nil map being the empty one (the program only takes [len]
    of a map, looks a key up, stores under a key and marshals, and none of
    these tells nil from empty). *)

From stdpp Require Import gmap strings list fin_maps sorting.
From Stdlib Require Import String Ascii NArith Lia.

Open Scope string_scope.

(** ** The Go library functions the program calls on strings and paths *)

Module GoStrings.

(** [strings.HasPrefix(s, prefix)]. *)
Fixpoint HasPrefix (s pre : string) {struct pre} : bool :=
  match pre, s with
  | EmptyString, _ => true
  | String p pre', String c s' => if Ascii.eqb c p then HasPrefix s' pre' else false
  | String _ _, EmptyString => false
  end.

(** The rest of [s] behind [pre], when [s] starts with it. *)
Fixpoint stripPrefix (s pre : string) {struct pre} : option string :=
  match pre, s with
  | EmptyString, _ => Some s
  | String p pre', String c s' => if Ascii.eqb c p then stripPrefix s' pre' else None
  | String _ _, EmptyString => None
  end.

(** [strings.TrimPrefix(s, prefix)]: [s] itself when it has no such prefix. *)
Definition TrimPrefix (s pre : string) : string :=
  match stripPrefix s pre with
  | Some rest => rest
  | None => s
  end.

(** [strings.Contains(s, substr)]. *)
Fixpoint Contains (s substr : string) : bool :=
  HasPrefix s substr ||
  match s with
  | EmptyString => false
  | String _ s' => Contains s' substr
  end.

(** [strings.Join(elems, sep)]. *)
Fixpoint Join (elems : list string) (sep : string) : string :=
  match elems with
  | [] => ""
  | [e] => e
  | e :: rest => e ++ sep ++ Join rest sep
  end.

(** The pieces of [s] between the occurrences of the byte [sep], as
    [strings.Split] gives them for a one-byte separator. *)
Fixpoint splitByte (sep : ascii) (s : string) : list string :=
  match s with
  | EmptyString => [""]
  | String c s' =>
      if Ascii.eqb c sep then "" :: splitByte sep s'
      else match splitByte sep s' with
           | piece :: pieces => String c piece :: pieces
           | [] => [String c ""]
           end
  end.

End GoStrings.

Module GoPath.

(** One name of the path met by [path.Clean], with the names kept so far
    (last one first): empty names and [.] go, [..] takes the last kept name
    away, stays when there is none to take in a relative path, and goes at
    the root. *)
Definition cleanStep (rooted : bool) (kept : list string) (name : string) : list string :=
  if decide (name = "" ∨ name = ".") then kept
  else if decide (name = "..") then
    match kept with
    | last :: before => if decide (last = "..") then name :: kept else before
    | [] => if rooted then [] else [name]
    end
  else name :: kept.

(** [path.Clean]: the shortest path naming the same place by lexical
    processing; [.] when nothing is left. *)
Definition Clean (p : string) : string :=
  let rooted := GoStrings.HasPrefix p "/" in
  let names := rev (fold_left (cleanStep rooted) (GoStrings.splitByte "/" p) []) in
  let out := (if rooted then "/" else "") ++ GoStrings.Join names "/" in
  if decide (out = "") then "." else out.

(** [path.Join] (and [filepath.Join] where the separator is [/]): leading
    empty elements are dropped, the rest is joined with [/] and cleaned;
    the empty string when every element is empty. *)
Fixpoint Join (elem : list string) : string :=
  match elem with
  | [] => ""
  | e :: rest => if decide (e = "") then Join rest
                 else Clean (GoStrings.Join elem "/")
  end.

End GoPath.

(** ** encoding/json, as far as the program uses it

    The program marshals one fixed shape: a struct of two maps from strings to
    structs of strings, every field tagged [omitempty].  A value of that shape
    becomes a tree of objects and strings, [json.MarshalIndent(v, "", "  ")]
    prints the tree.  Marshalling such a value cannot fail. *)

Module JSON.

#[warnings="-register-all"]
Inductive json : Type :=
| JString (s : string)
| JObject (members : list (string * json)).

Definition dquote : ascii := "034"%char.
Definition newline : ascii := "010"%char.

Definition hexDigit (n : N) : ascii :=
  match String.get (N.to_nat n) "0123456789abcdef" with
  | Some c => c
  | None => "0"%char
  end.

(** The bytes written for one byte below 0x80: the quote and the backslash
    behind a backslash, newline, carriage return and tab by their letter,
    the other control bytes and [<], [>], [&] as [\u00XX] (HTML escaping is
    on in [Marshal]), everything else as it is. *)
Definition escapeByte (c : ascii) : string :=
  let b := N_of_ascii c in
  if (b =? 34)%N then String "\"%char (String dquote "")
  else if (b =? 92)%N then "\\"
  else if (b =? 10)%N then "\n"
  else if (b =? 13)%N then "\r"
  else if (b =? 9)%N then "\t"
  else if ((b <? 32) || (b =? 60) || (b =? 62) || (b =? 38))%N then
    "\u00" ++ String (hexDigit (N.shiftr b 4)) (String (hexDigit (N.land b 15)) "")
  else String c "".

Definition inRange (lo hi : N) (c : ascii) : bool :=
  ((lo <=? N_of_ascii c) && (N_of_ascii c <=? hi))%N.

Definition continuation : ascii -> bool := inRange 128 191.

(** Length in bytes of the UTF-8 encoding that starts with the byte [c0]
    (0x80 or above) followed by [rest], as [utf8.DecodeRuneInString] accepts
    it; 0 when the bytes are no well-formed encoding. *)
Definition runeLen (c0 : ascii) (rest : string) : nat :=
  match rest with
  | String c1 rest1 =>
      if inRange 194 223 c0 then (if continuation c1 then 2 else 0)
      else
        let b := N_of_ascii c0 in
        let second :=
          if (b =? 224)%N then inRange 160 191 c1
          else if (b =? 237)%N then inRange 128 159 c1
          else if (b =? 240)%N then inRange 144 191 c1
          else if (b =? 244)%N then inRange 128 143 c1
          else continuation c1 in
        if inRange 224 239 c0 then
          match rest1 with
          | String c2 _ => if second && continuation c2 then 3 else 0
          | EmptyString => 0
          end
        else if inRange 240 244 c0 then
          match rest1 with
          | String c2 (String c3 _) =>
              if second && continuation c2 && continuation c3 then 4 else 0
          | _ => 0
          end
        else 0
  | EmptyString => 0
  end.

(** The body of a JSON string literal for the Go string [s]: bytes below
    0x80 by [escapeByte]; a well-formed multi-byte rune as it is, except
    U+2028 and U+2029 (bytes E2 80 A8 and E2 80 A9), which are written as a
    backslash, [u] and their four hex digits; a byte that starts no
    well-formed rune as the escape of U+FFFD.  (The Go releases of the time of
    this program write the control bytes 8 and 12 in the [u00XX] form too.) *)
Fixpoint escape (s : string) : string :=
  match s with
  | EmptyString => EmptyString
  | String c0 rest =>
      if (N_of_ascii c0 <? 128)%N then escapeByte c0 ++ escape rest
      else
        match runeLen c0 rest, rest with
        | 2, String c1 rest1 => String c0 (String c1 (escape rest1))
        | 3, String c1 (String c2 rest2) =>
            if ((N_of_ascii c0 =? 226) && (N_of_ascii c1 =? 128)
                && ((N_of_ascii c2 =? 168) || (N_of_ascii c2 =? 169)))%N
            then "\u202" ++ String (hexDigit (N.land (N_of_ascii c2) 15)) (escape rest2)
            else String c0 (String c1 (String c2 (escape rest2)))
        | 4, String c1 (String c2 (String c3 rest3)) =>
            String c0 (String c1 (String c2 (String c3 (escape rest3))))
        | _, _ => ("\u" ++ "fffd") ++ escape rest
        end
  end.

(** A string (a value or an object key) as it stands in the output. *)
Definition encodeString (s : string) : string :=
  String dquote (escape s ++ String dquote "").

(** A line break followed by [depth] times the two-space indent. *)
Fixpoint lineBreak (depth : nat) : string :=
  match depth with
  | O => String newline ""
  | S d => lineBreak d ++ "  "
  end.

(** The text of a tree at nesting [depth]: an object opens a line per
    member, [key: value], members separated by a comma; the empty object is
    [{}]. *)
Fixpoint render (depth : nat) (j : json) : string :=
  match j with
  | JString s => encodeString s
  | JObject [] => "{}"
  | JObject members =>
      "{" ++ lineBreak (S depth) ++
      GoStrings.Join
        ((fix each (ms : list (string * json)) : list string :=
            match ms with
            | [] => []
            | (k, v) :: ms' => (encodeString k ++ ": " ++ render (S depth) v) :: each ms'
            end) members)
        ("," ++ lineBreak (S depth)) ++
      lineBreak depth ++ "}"
  end.

(** The value under [key] in an object. *)
Fixpoint lookupMember (key : string) (members : list (string * json)) : option json :=
  match members with
  | [] => None
  | (k, v) :: rest => if decide (k = key) then Some v else lookupMember key rest
  end.

Definition member (key : string) (j : json) : option json :=
  match j with
  | JObject members => lookupMember key members
  | JString _ => None
  end.


(** A struct whose fields are all strings tagged [omitempty]: the fields in
    declaration order, the empty ones left out. *)
Definition encodeStruct (fields : list (string * string)) : json :=
  JObject (omap (λ kv : string * string,
                   if decide (kv.2 = "") then None else Some (kv.1, JString kv.2))
                fields).

(** A map with string keys: an object whose members come in the order of
    their keys. *)
Definition encodeMap {V : Type} (enc : V → json) (m : gmap string V) : json :=
  JObject ((λ kv : string * V, (kv.1, enc kv.2))
             <$> merge_sort (λ a b : string * V, String.leb a.1 b.1) (map_to_list m)).

(** A struct field holding a map and tagged [omitempty]: left out when the
    map has no entry. *)
Definition mapField {V : Type} (name : string) (enc : V → json) (m : gmap string V)
  : list (string * json) :=
  if decide (size m = 0) then [] else [(name, encodeMap enc m)].

End JSON.

(** ** The data model *)

Module ConfigsModel.
Record t : Type := Build {
  Configuration : string;
  DevelopmentTeam : string;
  CodeSignIdentity : string;
  ProvisioningProfile : string;
  PackageType : string;
  KeystoreURL : string;
  KeystorePassword : string;
  KeystoreAlias : string;
  PrivateKeyPassword : string
}.
End ConfigsModel.

Module IOSBuildConfigurationItem.
Record t : Type := Build {
  CodeSignIdentity : string;
  ProvisioningProfile : string;
  DevelopmentTeam : string;
  PackageType : string
}.

(** The struct tags: the JSON names in declaration order, all [omitempty]. *)
Definition encode (i : t) : JSON.json :=
  JSON.encodeStruct
    [("codeSignIdentity", CodeSignIdentity i);
     ("provisioningProfile", ProvisioningProfile i);
     ("developmentTeam", DevelopmentTeam i);
     ("packageType", PackageType i)].
End IOSBuildConfigurationItem.

Module AndroidBuildConfigurationItem.
Record t : Type := Build {
  Keystore : string;
  StorePassword : string;
  Alias : string;
  Password : string
}.

Definition encode (a : t) : JSON.json :=
  JSON.encodeStruct
    [("keystore", Keystore a);
     ("storePassword", StorePassword a);
     ("alias", Alias a);
     ("password", Password a)].
End AndroidBuildConfigurationItem.

Module BuildConfiguration.
Record t : Type := Build {
  Android : gmap string AndroidBuildConfigurationItem.t;
  IOS : gmap string IOSBuildConfigurationItem.t
}.

Definition encode (bc : t) : JSON.json :=
  JSON.JObject
    (JSON.mapField "android" AndroidBuildConfigurationItem.encode (Android bc)
     ++ JSON.mapField "ios" IOSBuildConfigurationItem.encode (IOS bc)).
End BuildConfiguration.

(** [json.MarshalIndent(buildConfig, "", "  ")].  Its error result is always
    nil on this shape, so the [fail("Failed to marshal build config ...")]
    branches of [main] are never taken and have no counterpart here. *)
Definition MarshalIndent (bc : BuildConfiguration.t) : string :=
  JSON.render 0 (BuildConfiguration.encode bc).

(** ** The world around one run

    What the operating system, the network and envman answer to the calls the
    program makes.  [None] and [false] stand for a non-nil [error]. *)

(** What the program could read of an [http.Response]. *)
Record Response : Type := {
  StatusCode : nat;
  Body : string
}.

Record World : Type := {
  (** [os.Getenv]: the value of a variable, empty when unset. *)
  Getenv : string → string;
  (** [pathutil.NormalizedOSTempDirPath]: creates a fresh directory and gives
      its path. *)
  NormalizedOSTempDirPath : string → option string;
  (** [pathutil.AbsPath]: expands [~] and variables, then makes the path
      absolute in the working directory. *)
  AbsPath : string → option string;
  (** [os.Create]: whether the file could be opened. *)
  Create : string → bool;
  (** [http.Get]: an error when no response arrives, else the response,
      whatever its status. *)
  Get : string → option Response;
  (** [io.Copy(out, resp.Body)] into the file at a path, opened or not:
      whether it returned nil. *)
  Copy : bool → string → string → bool;
  (** [fileutil.WriteBytesToFile]. *)
  WriteBytesToFile : string → string → bool;
  (** The run of [envman add --key <key>] with the value on its input. *)
  EnvmanAdd : string → string → bool
}.

(** What a run does to the file system, the network and the pipeline, and the
    document it prints, in the order of occurrence: the calls of
    [NormalizedOSTempDirPath], [os.Create], [http.Get], [io.Copy],
    [WriteBytesToFile] and envman with their arguments, whether they succeed
    or not, and [EvContent] for the two [log.Printf] calls that print the
    document.  The string of [EvContent] is the one handed to [log.Printf]
    as its format; it appears as it is in the log when it holds no [%].  The
    other log lines are not recorded. *)
Inductive Event : Type :=
| EvTempDir (prefix : string)
| EvCreate (pth : string)
| EvGet (url : string)
| EvCopy (pth body : string)
| EvContent (format : string)
| EvWriteFile (pth content : string)
| EvEnvman (key value : string).

(** The ways [main] ends before its last line: [fail] (an error line, then
    [os.Exit(1)]), named by what failed, and the [os.Exit(0)] of the empty
    document. *)
Inductive Failure : Type :=
| ConfigError          (* "Couldn't create config" *)
| InvalidInput         (* "Issue with input" *)
| TmpDirError          (* "Failed to create tmp dir" *)
| PathResolutionError  (* "Failed to expand path" *)
| DownloadError        (* "Failed to download keystore" *)
| PersistenceError     (* "Failed to write build.json file" *)
| PublishError.        (* "Failed to export BITRISE_CORDOVA_BUILD_CONFIGURATION" *)

Inductive Exit : Type :=
| Fail (f : Failure)
| NothingToGenerate.

(** A piece of the program: the events it causes, and either the exit that
    ended the process in it or its result. *)
Definition Step (A : Type) : Type := list Event * (Exit + A).

Definition ret {A : Type} (a : A) : Step A := ([], inr a).

Definition bind {A B : Type} (m : Step A) (k : A → Step B) : Step B :=
  match m.2 with
  | inl e => (m.1, inl e)
  | inr a => ((m.1 ++ (k a).1)%list, (k a).2)
  end.

Notation "x <~ m ;; k" := (bind m (λ x, k))
  (at level 100, m at next level, right associativity).
Notation "m ;;; k" := (bind m (λ _, k))
  (at level 100, right associativity).

Definition emit (e : Event) : Step unit := ([e], inr tt).

Definition exit {A : Type} (e : Exit) : Step A := ([], inl e).

(** [fail(format, v...)]. *)
Definition fail {A : Type} (f : Failure) : Step A := exit (Fail f).

Definition trace {A : Type} (s : Step A) : list Event := s.1.

Definition outcome {A : Type} (s : Step A) : Exit + A := s.2.

(** The status the process ends with. *)
Definition exitCode {A : Type} (s : Step A) : nat :=
  match s.2 with
  | inl (Fail _) => 1
  | inl NothingToGenerate => 0
  | inr _ => 0
  end.

(** ** The program *)

Import ConfigsModel.

(** [download(url, pth)]: the file is created, the URL fetched with one
    [http.Get], the body copied into the file.  The error of [os.Create] is
    overwritten by that of [http.Get] before anything reads it; the status of
    the response is not looked at.  The result tells whether [download]
    returned nil. *)
Definition download (w : World) (url pth : string) : Step bool :=
  emit (EvCreate pth) ;;;
  emit (EvGet url) ;;;
  match Get w url with
  | None => ret false
  | Some resp =>
      emit (EvCopy pth (Body resp)) ;;;
      ret (Copy w (Create w pth) pth (Body resp))
  end.

(** [exportEnvironmentWithEnvman(keyStr, valueStr)]. *)
Definition exportEnvironmentWithEnvman (w : World) (keyStr valueStr : string) : Step bool :=
  emit (EvEnvman keyStr valueStr) ;;;
  ret (EnvmanAdd w keyStr valueStr).

(** The scratch directory of [main]. *)
Definition tmpDirPath (w : World) : Step string :=
  emit (EvTempDir "__bitrise-cordova-build-config__") ;;;
  match NormalizedOSTempDirPath w "__bitrise-cordova-build-config__" with
  | None => fail TmpDirError
  | Some tmpDir => ret tmpDir
  end.

(** The block "Android Build Config" of [main]: the value [buildConfig.Android]
    has behind it. *)
Definition androidBuildConfig (w : World) (configs : ConfigsModel.t) (tmpDir : string)
  : Step (gmap string AndroidBuildConfigurationItem.t) :=
  if decide (KeystoreURL configs ≠ "") then
    keystorePath <~
      (if GoStrings.HasPrefix (KeystoreURL configs) "file://" then
         let rawPth := GoStrings.TrimPrefix (KeystoreURL configs) "file://" in
         match AbsPath w rawPth with
         | None => fail PathResolutionError
         | Some absPth => ret absPth
         end
       else
         let keystorePath := GoPath.Join [tmpDir; "keystore.jks"] in
         ok <~ download w (KeystoreURL configs) keystorePath ;;
         if ok : bool then ret keystorePath else fail DownloadError) ;;
    ret {[ Configuration configs :=
             {| AndroidBuildConfigurationItem.Keystore := keystorePath;
                AndroidBuildConfigurationItem.StorePassword := KeystorePassword configs;
                AndroidBuildConfigurationItem.Alias := KeystoreAlias configs;
                AndroidBuildConfigurationItem.Password := PrivateKeyPassword configs |} ]}
  else ret ∅.

(** The block "iOS Build Config" of [main]: the value [buildConfig.IOS] has
    behind it. *)
Definition iosBuildConfig (configs : ConfigsModel.t)
  : gmap string IOSBuildConfigurationItem.t :=
  if decide (PackageType configs ≠ "none") then
    {[ Configuration configs :=
         {| IOSBuildConfigurationItem.CodeSignIdentity := CodeSignIdentity configs;
            IOSBuildConfigurationItem.ProvisioningProfile := ProvisioningProfile configs;
            IOSBuildConfigurationItem.DevelopmentTeam := DevelopmentTeam configs;
            IOSBuildConfigurationItem.PackageType := PackageType configs |} ]}
  else ∅.

(** The document as it stands when [main] reaches its emptiness test. *)
Definition assemble (w : World) (configs : ConfigsModel.t) (tmpDir : string)
  : Step BuildConfiguration.t :=
  android <~ androidBuildConfig w configs tmpDir ;;
  ret {| BuildConfiguration.Android := android;
         BuildConfiguration.IOS := iosBuildConfig configs |}.

(** The end of [main]: the file is written, its path handed over. *)
Definition publish (w : World) (tmpDir buildConfigBytes : string) : Step unit :=
  let buildConfigPth := GoPath.Join [tmpDir; "build.json"] in
  emit (EvWriteFile buildConfigPth buildConfigBytes) ;;;
  if WriteBytesToFile w buildConfigPth buildConfigBytes then
    ok <~ exportEnvironmentWithEnvman w "BITRISE_CORDOVA_BUILD_CONFIGURATION" buildConfigPth ;;
    if ok : bool then ret tt else fail PublishError
  else fail PersistenceError.

(** *** The first text: inputs checked by [validate] *)

Module V1.

Definition createConfigsModelFromEnvs (w : World) : ConfigsModel.t :=
  {| Configuration := Getenv w "configuration";
     DevelopmentTeam := Getenv w "development_team";
     CodeSignIdentity := Getenv w "code_sign_identity";
     ProvisioningProfile := Getenv w "provisioning_profile";
     PackageType := Getenv w "package_type";
     KeystoreURL := Getenv w "keystore_url";
     KeystorePassword := Getenv w "keystore_password";
     KeystoreAlias := Getenv w "keystore_alias";
     PrivateKeyPassword := Getenv w "private_key_password" |}.

(** The two errors of [input.ValidateWithOptions] (go-steputils). *)
Inductive InputError : Type :=
| NotSpecified
| InvalidParameter (value : string) (available : list string).

(** [input.ValidateWithOptions(value, options...)]: the value has to be
    non-empty and one of the options. *)
Definition ValidateWithOptions (value : string) (options : list string) : option InputError :=
  if decide (value = "") then Some NotSpecified
  else if decide (value ∈ options) then None
  else Some (InvalidParameter value options).

(** [configs.validate()]: nil, or the error of the first field that fails,
    under the name of the field. *)
Definition validate (configs : ConfigsModel.t) : option (string * InputError) :=
  match ValidateWithOptions (Configuration configs) ["release"; "debug"] with
  | Some err => Some ("Configuration", err)
  | None =>
      match ValidateWithOptions (PackageType configs)
              ["none"; "development"; "enterprise"; "ad-hoc"; "app-store"] with
      | Some err => Some ("PackageType", err)
      | None => None
      end
  end.

(** [main]: the document is printed as it is written. *)
Definition main (w : World) : Step unit :=
  let configs := createConfigsModelFromEnvs w in
  match validate configs with
  | Some _ => fail InvalidInput
  | None =>
      tmpDir <~ tmpDirPath w ;;
      buildConfig <~ assemble w configs tmpDir ;;
      if decide (size (BuildConfiguration.Android buildConfig) = 0
                 ∧ size (BuildConfiguration.IOS buildConfig) = 0)
      then exit NothingToGenerate
      else
        let buildConfigBytes := MarshalIndent buildConfig in
        emit (EvContent buildConfigBytes) ;;;
        publish w tmpDir buildConfigBytes
  end.

End V1.

(** *** The second text: inputs parsed by stepconf, passwords masked in print *)

Module V2.

(** [stepconf.Parse(&configs)] under the struct tags of [ConfigsModel]: every
    field is read from its variable; [configuration], the one tagged
    [required], must not be empty.  No tag restricts a field to a list of
    values. *)
Definition Parse (w : World) : option ConfigsModel.t :=
  if decide (Getenv w "configuration" = "") then None
  else Some (V1.createConfigsModelFromEnvs w).

(** Lines 402-407: what replaces a password that is not empty. *)
Definition maskPasswords (config : AndroidBuildConfigurationItem.t)
  : AndroidBuildConfigurationItem.t :=
  let config :=
    if decide (AndroidBuildConfigurationItem.Password config ≠ "") then
      {| AndroidBuildConfigurationItem.Keystore := AndroidBuildConfigurationItem.Keystore config;
         AndroidBuildConfigurationItem.StorePassword := AndroidBuildConfigurationItem.StorePassword config;
         AndroidBuildConfigurationItem.Alias := AndroidBuildConfigurationItem.Alias config;
         AndroidBuildConfigurationItem.Password := "*****" |}
    else config in
  if decide (AndroidBuildConfigurationItem.StorePassword config ≠ "") then
    {| AndroidBuildConfigurationItem.Keystore := AndroidBuildConfigurationItem.Keystore config;
       AndroidBuildConfigurationItem.StorePassword := "*****";
       AndroidBuildConfigurationItem.Alias := AndroidBuildConfigurationItem.Alias config;
       AndroidBuildConfigurationItem.Password := AndroidBuildConfigurationItem.Password config |}
  else config.

(** Lines 401-409: [buildConfig] after the masked entry has been stored back
    into its Android map, when the map has an entry for the configuration. *)
Definition masked (configs : ConfigsModel.t) (buildConfig : BuildConfiguration.t)
  : option BuildConfiguration.t :=
  match BuildConfiguration.Android buildConfig !! Configuration configs with
  | Some config =>
      Some {| BuildConfiguration.Android :=
                <[ Configuration configs := maskPasswords config ]>
                  (BuildConfiguration.Android buildConfig);
              BuildConfiguration.IOS := BuildConfiguration.IOS buildConfig |}
  | None => None
  end.

(** Lines 398-415: the bytes handed to [log.Printf]: a copy of the marshalled
    document, or the masked document marshalled anew. *)
Definition printableConfigBytes (configs : ConfigsModel.t)
    (buildConfig : BuildConfiguration.t) (buildConfigBytes : string) : string :=
  match masked configs buildConfig with
  | Some buildConfig' => MarshalIndent buildConfig'
  | None => buildConfigBytes
  end.

(** [main]: the bytes for the file are marshalled before the passwords are
    masked for the print. *)
Definition main (w : World) : Step unit :=
  match Parse w with
  | None => fail ConfigError
  | Some configs =>
      tmpDir <~ tmpDirPath w ;;
      buildConfig <~ assemble w configs tmpDir ;;
      if decide (size (BuildConfiguration.Android buildConfig) = 0
                 ∧ size (BuildConfiguration.IOS buildConfig) = 0)
      then exit NothingToGenerate
      else
        let buildConfigBytes := MarshalIndent buildConfig in
        emit (EvContent (printableConfigBytes configs buildConfig buildConfigBytes)) ;;;
        publish w tmpDir buildConfigBytes
  end.

End V2.

(** ** Vocabulary of the statements *)

(** The Android entry [main] builds around a keystore path. *)
Definition androidItem (configs : ConfigsModel.t) (keystorePath : string)
  : AndroidBuildConfigurationItem.t :=
  {| AndroidBuildConfigurationItem.Keystore := keystorePath;
     AndroidBuildConfigurationItem.StorePassword := KeystorePassword configs;
     AndroidBuildConfigurationItem.Alias := KeystoreAlias configs;
     AndroidBuildConfigurationItem.Password := PrivateKeyPassword configs |}.

(** The iOS entry [main] builds. *)
Definition iosItem (configs : ConfigsModel.t) : IOSBuildConfigurationItem.t :=
  {| IOSBuildConfigurationItem.CodeSignIdentity := CodeSignIdentity configs;
     IOSBuildConfigurationItem.ProvisioningProfile := ProvisioningProfile configs;
     IOSBuildConfigurationItem.DevelopmentTeam := DevelopmentTeam configs;
     IOSBuildConfigurationItem.PackageType := PackageType configs |}.

(** What a password field shows in print. *)
Definition hidden (s : string) : string :=
  if decide (s = "") then "" else "*****".

(** The two enumerated inputs hold allowed values. *)
Definition validInputs (configs : ConfigsModel.t) : Prop :=
  Configuration configs ∈ ["release"; "debug"]
  ∧ PackageType configs ∈ ["none"; "development"; "enterprise"; "ad-hoc"; "app-store"].

(** The keystore reference is neither empty nor a [file://] one: it is
    fetched. *)
Definition remote (configs : ConfigsModel.t) : Prop :=
  KeystoreURL configs ≠ "" ∧ GoStrings.HasPrefix (KeystoreURL configs) "file://" = false.

(** How the Android block came to a keystore path: by [AbsPath] on the rest of
    a [file://] reference, or by a download into the scratch directory. *)
Definition located (w : World) (configs : ConfigsModel.t) (tmpDir keystorePath : string) : Prop :=
  (GoStrings.HasPrefix (KeystoreURL configs) "file://" = true
   ∧ AbsPath w (GoStrings.TrimPrefix (KeystoreURL configs) "file://") = Some keystorePath)
  ∨ (GoStrings.HasPrefix (KeystoreURL configs) "file://" = false
     ∧ keystorePath = GoPath.Join [tmpDir; "keystore.jks"]).


(** A present value of a struct field in the output: none for the empty
    string. *)
Definition present (value : string) : option JSON.json :=
  if decide (value = "") then None else Some (JSON.JString value).

(** The URLs fetched, the documents printed and the files written in a
    trace. *)
Definition gets (tr : list Event) : list string :=
  omap (λ e, match e with EvGet url => Some url | _ => None end) tr.

Definition printed (tr : list Event) : list string :=
  omap (λ e, match e with EvContent content => Some content | _ => None end) tr.

Definition written (tr : list Event) : list (string * string) :=
  omap (λ e, match e with EvWriteFile pth content => Some (pth, content) | _ => None end) tr.

(** The first document printed and the first file content written by a run;
    empty when there is none. *)
Definition firstPrinted (s : Step unit) : string := hd "" (printed (trace s)).

Definition firstWritten (s : Step unit) : string := (hd ("", "") (written (trace s))).2.

(** ** Sample worlds *)

Fixpoint lookupEnv (vars : list (string * string)) (name : string) : string :=
  match vars with
  | [] => ""
  | (k, v) :: rest => if decide (k = name) then v else lookupEnv rest name
  end.

(** A machine whose working directory is [/work], whose scratch directory is
    [tmpDir], where files can be written and envman runs; the network answers
    every GET with [answer]. *)
Definition sampleWorld (vars : list (string * string)) (tmpDir : string)
    (answer : option Response) : World :=
  {| Getenv := lookupEnv vars;
     NormalizedOSTempDirPath := λ _, Some tmpDir;
     AbsPath := λ p, if decide (p = "") then None
                     else if GoStrings.HasPrefix p "/" then Some (GoPath.Clean p)
                     else Some (GoPath.Join ["/work"; p]);
     Create := λ _, true;
     Get := λ _, answer;
     Copy := λ _ _ _, true;
     WriteBytesToFile := λ _ _, true;
     EnvmanAdd := λ _ _, true |}.

(** The inputs of a release build signed with a keystore to download; the
    keystore password and the alias are the same word. *)
Definition signedInputs : list (string * string) :=
  [("configuration", "release"); ("package_type", "none");
   ("keystore_url", "https://example.com/a.jks");
   ("keystore_password", "upload"); ("keystore_alias", "upload");
   ("private_key_password", "s3cret")].

(** The keystore is served. *)
Definition servedWorld (tmpDir : string) : World :=
  sampleWorld signedInputs tmpDir (Some {| StatusCode := 200; Body := "keystore bytes" |}).

(** The server answers 404 with an error page. *)
Definition notFoundWorld : World :=
  sampleWorld signedInputs "/tmp/scratch1"
    (Some {| StatusCode := 404; Body := "Not Found" |}).

(** No network. *)
Definition offlineWorld : World :=
  sampleWorld signedInputs "/tmp/scratch1" None.

(** A debug build with a local keystore and an iOS section. *)
Definition localWorld : World :=
  sampleWorld
    [("configuration", "debug"); ("package_type", "development");
     ("code_sign_identity", "iPhone Developer"); ("development_team", "TEAM");
     ("keystore_url", "file:///tmp/a.jks");
     ("keystore_password", "storepw"); ("keystore_alias", "key0")]
    "/tmp/scratch1" None.

(** Passwords given, but no keystore: only the iOS section is asked for. *)
Definition iosOnlyWorld : World :=
  sampleWorld
    [("configuration", "release"); ("package_type", "development");
     ("code_sign_identity", "X"); ("provisioning_profile", "Y");
     ("development_team", "Z"); ("keystore_password", "s3cret")]
    "/tmp/scratch1" None.

(** Nothing to generate, and a configuration that is none of the two. *)
Definition stagingWorld : World :=
  sampleWorld
    [("configuration", "staging"); ("package_type", "none")]
    "/tmp/scratch1" None.

(** A configuration that is none of the two, with a keystore to download. *)
Definition stagingSignedWorld : World :=
  sampleWorld
    [("configuration", "staging"); ("package_type", "none");
     ("keystore_url", "https://example.com/a.jks");
     ("keystore_password", "upload"); ("keystore_alias", "upload")]
    "/tmp/scratch1"
    (Some {| StatusCode := 200; Body := "keystore bytes" |}).

(** Nothing to generate, under a valid configuration. *)
Definition emptyWorld : World :=
  sampleWorld
    [("configuration", "release"); ("package_type", "none")]
    "/tmp/scratch1" None.

(** A release build signed with a keystore that a [file://] reference names
    relative to the working directory. *)
Definition relativeKeystoreInputs : list (string * string) :=
  [("configuration", "release"); ("package_type", "none");
   ("keystore_url", "file://a.jks");
   ("keystore_password", "storepw"); ("keystore_alias", "key0")].

(** The machine of [sampleWorld], without network, with [cwd] for its working
    directory: the build runs with [relativeKeystoreInputs] in a checkout at
    [cwd]. *)
Definition checkoutWorld (cwd tmpDir : string) : World :=
  {| Getenv := lookupEnv relativeKeystoreInputs;
     NormalizedOSTempDirPath := λ _, Some tmpDir;
     AbsPath := λ p, if decide (p = "") then None
                     else if GoStrings.HasPrefix p "/" then Some (GoPath.Clean p)
                     else Some (GoPath.Join [cwd; p]);
     Create := λ _, true;
     Get := λ _, None;
     Copy := λ _ _ _, true;
     WriteBytesToFile := λ _ _, true;
     EnvmanAdd := λ _ _, true |}.

(** ** The two texts side by side *)

Inductive Text : Type :=
| First
| Second.

Definition run (t : Text) (w : World) : Step unit :=
  match t with
  | First => V1.main w
  | Second => V2.main w
  end.

(** The inputs, which both texts read from the same variables. *)
Definition inputs (w : World) : ConfigsModel.t := V1.createConfigsModelFromEnvs w.

(** The inputs pass the check a text makes before it goes on: [validate] in
    the first, the [required] tag of [configuration] in the second. *)
Definition accepted (t : Text) (configs : ConfigsModel.t) : Prop :=
  match t with
  | First => V1.validate configs = None
  | Second => Configuration configs ≠ ""
  end.

(** The failure a text ends in when its check rejects the inputs. *)
Definition rejection (t : Text) : Failure :=
  match t with
  | First => InvalidInput
  | Second => ConfigError
  end.

(** The document a text prints when it has assembled [doc]. *)
Definition shown (t : Text) (configs : ConfigsModel.t) (doc : BuildConfiguration.t)
  : BuildConfiguration.t :=
  match t with
  | First => doc
  | Second => match V2.masked configs doc with
              | Some doc' => doc'
              | None => doc
              end
  end.

(** What both texts do once they have their inputs, up to the bytes they
    print. *)
Definition afterInputs (w : World) (configs : ConfigsModel.t)
    (display : BuildConfiguration.t → string) : Step unit :=
  tmpDir <~ tmpDirPath w ;;
  buildConfig <~ assemble w configs tmpDir ;;
  if decide (size (BuildConfiguration.Android buildConfig) = 0
             ∧ size (BuildConfiguration.IOS buildConfig) = 0)
  then exit NothingToGenerate
  else
    emit (EvContent (display buildConfig)) ;;;
    publish w tmpDir (MarshalIndent buildConfig).

(** ** Runs past the emptiness test *)

(** The events of the Android block. *)
Definition keystoreEvent (e : Event) : Prop :=
  match e with
  | EvCreate _ | EvGet _ | EvCopy _ _ => True
  | _ => False
  end.

(** The run got a scratch directory, assembled [doc] without failing, and
    [doc] has a section. *)
Definition generated (w : World) (configs : ConfigsModel.t) (tmpDir : string)
    (doc : BuildConfiguration.t) : Prop :=
  NormalizedOSTempDirPath w "__bitrise-cordova-build-config__" = Some tmpDir
  ∧ (∃ tr, assemble w configs tmpDir = (tr, inr doc))
  ∧ ¬ (size (BuildConfiguration.Android doc) = 0 ∧ size (BuildConfiguration.IOS doc) = 0).

(** ** Vocabulary of the further properties *)

(** The nine inputs in the order of the fields of [ConfigsModel]. *)
Definition fields (configs : ConfigsModel.t) : list string :=
  [Configuration configs; DevelopmentTeam configs; CodeSignIdentity configs;
   ProvisioningProfile configs; PackageType configs; KeystoreURL configs;
   KeystorePassword configs; KeystoreAlias configs; PrivateKeyPassword configs].

(** Every event a run can cause, in the order of [main]. *)
Definition fullTrace (keystorePath url body display pth content : string) : list Event :=
  [EvTempDir "__bitrise-cordova-build-config__";
   EvCreate keystorePath; EvGet url; EvCopy keystorePath body;
   EvContent display;
   EvWriteFile pth content;
   EvEnvman "BITRISE_CORDOVA_BUILD_CONFIGURATION" pth].

(** A path name that [path.Clean] keeps as it is: not empty, neither [.] nor
    [..], without a slash. *)
Definition plainName (name : string) : Prop :=
  name ≠ "" ∧ name ≠ "." ∧ name ≠ ".." ∧ GoStrings.splitByte "/" name = [name].

(** An absolute path in its shortest form, below the root: a slash before
    each of one or more plain names. *)
Definition cleanAbsolute (p : string) : Prop :=
  ∃ name names, Forall plainName (name :: names)
                ∧ p = "/" ++ GoStrings.Join (name :: names) "/".

(** The keys of the members of an object, in order. *)
Definition keys (j : JSON.json) : list string :=
  match j with
  | JSON.JObject members => members.*1
  | JSON.JString _ => []
  end.

(** A world in which nothing is set but [package_type] is left out, as the
    second text accepts it. *)
Definition unsetPackageTypeWorld : World :=
  sampleWorld [("configuration", "release")] "/tmp/scratch1" None.

(** A document with two Android entries, as no run assembles one. *)
Definition twoBuilds : BuildConfiguration.t :=
  {| BuildConfiguration.Android :=
       {[ "release" := {| AndroidBuildConfigurationItem.Keystore := "/k.jks";
                          AndroidBuildConfigurationItem.StorePassword := "storepw";
                          AndroidBuildConfigurationItem.Alias := "key0";
                          AndroidBuildConfigurationItem.Password := "" |};
          "debug" := {| AndroidBuildConfigurationItem.Keystore := "/d.jks";
                        AndroidBuildConfigurationItem.StorePassword := "debugpw";
                        AndroidBuildConfigurationItem.Alias := "key1";
                        AndroidBuildConfigurationItem.Password := "pw" |} ]};
     BuildConfiguration.IOS := ∅ |}.

(** What a trace does apart from printing the document. *)
Definition effects (tr : list Event) : list Event :=
  List.filter (λ e, match e with EvContent _ => false | _ => true end) tr.

(** The variables [createConfigsModelFromEnvs] reads. *)
Definition inputNames : list string :=
  ["configuration"; "development_team"; "code_sign_identity"; "provisioning_profile";
   "package_type"; "keystore_url"; "keystore_password"; "keystore_alias";
   "private_key_password"].

(** Two worlds answer alike wherever a program can see it, short of the status
    of a response and of the variables that are no input. *)
Definition sameButStatus (w1 w2 : World) : Prop :=
  (∀ name, name ∈ inputNames → Getenv w1 name = Getenv w2 name)
  ∧ (∀ pre, NormalizedOSTempDirPath w1 pre = NormalizedOSTempDirPath w2 pre)
  ∧ (∀ pth, AbsPath w1 pth = AbsPath w2 pth)
  ∧ (∀ pth, Create w1 pth = Create w2 pth)
  ∧ (∀ url, Body <$> Get w1 url = Body <$> Get w2 url)
  ∧ (∀ opened pth body, Copy w1 opened pth body = Copy w2 opened pth body)
  ∧ (∀ pth content, WriteBytesToFile w1 pth content = WriteBytesToFile w2 pth content)
  ∧ (∀ key value, EnvmanAdd w1 key value = EnvmanAdd w2 key value).

(** The error page of [notFoundWorld], served with status 200. *)
Definition errorPageWorld : World :=
  sampleWorld signedInputs "/tmp/scratch1" (Some {| StatusCode := 200; Body := "Not Found" |}).

(** The files an event names lie directly in [tmpDir], under the names
    [main] gives them. *)
Definition placed (tmpDir : string) (e : Event) : Prop :=
  match e with
  | EvCreate pth | EvCopy pth _ => pth = tmpDir ++ "/keystore.jks"
  | EvWriteFile pth _ => pth = tmpDir ++ "/build.json"
  | EvEnvman key value =>
      key = "BITRISE_CORDOVA_BUILD_CONFIGURATION" ∧ value = tmpDir ++ "/build.json"
  | _ => True
  end.

(** The inputs of [signedInputs] on a machine where the scratch directory,
    the write of [build.json] or envman may fail. *)
Definition brokenWorld (tmpDir : option string) (writable envman : bool) : World :=
  {| Getenv := lookupEnv signedInputs;
     NormalizedOSTempDirPath := λ _, tmpDir;
     AbsPath := λ _, None;
     Create := λ _, true;
     Get := λ _, Some {| StatusCode := 200; Body := "keystore bytes" |};
     Copy := λ _ _ _, true;
     WriteBytesToFile := λ _ _, writable;
     EnvmanAdd := λ _ _, envman |}.

(** A [file://] reference with nothing behind it, which [AbsPath] refuses. *)
Definition unresolvableWorld : World :=
  sampleWorld [("configuration", "release"); ("package_type", "none");
               ("keystore_url", "file://")]
    "/tmp/scratch1" None.

(** * Properties *)

Set Warnings "-clear-no-such-hyp".
Arguments MarshalIndent : simpl never.

(** Membership of an event in the trace of a run on a sample world. *)
Ltac in_trace := vm_compute; repeat ((left; reflexivity) || right).

(** ** The library functions on samples *)

Example Clean_samples :
  GoPath.Clean "a/../../b/./c//d/.." = "../b/c"
  ∧ GoPath.Clean "/../a/.." = "/"
  ∧ GoPath.Clean "" = "."
  ∧ GoPath.Clean "/tmp//x/" = "/tmp/x"
  ∧ GoPath.Clean "abc/def/../../.." = ".."
  ∧ GoPath.Clean "/abc/def/../../.." = "/"
  ∧ GoPath.Clean "abc/def/../../../ghi/jkl/../../../mno" = "../../mno"
  ∧ GoPath.Clean "abc/../../././../def" = "../../def"
  ∧ GoPath.Clean "//abc//" = "/abc"
  ∧ GoPath.Clean "abc/./../def" = "def".
Proof. repeat split; reflexivity. Qed.

Example Join_samples :
  GoPath.Join ["/tmp/scratch1"; "keystore.jks"] = "/tmp/scratch1/keystore.jks"
  ∧ GoPath.Join [""; "keystore.jks"] = "keystore.jks"
  ∧ GoPath.Join ["/tmp/scratch1/"; "build.json"] = "/tmp/scratch1/build.json".
Proof. repeat split; reflexivity. Qed.

Example TrimPrefix_samples :
  GoStrings.TrimPrefix "file:///tmp/a.jks" "file://" = "/tmp/a.jks"
  ∧ GoStrings.TrimPrefix "https://example.com/a.jks" "file://" = "https://example.com/a.jks"
  ∧ GoStrings.HasPrefix "FILE:///tmp/a.jks" "file://" = false.
Proof. repeat split; reflexivity. Qed.

(** The file of a release build with an iOS section only, byte for byte. *)
Example build_json_sample :
  let q := JSON.encodeString in
  firstWritten (V1.main iosOnlyWorld)
  = GoStrings.Join
      ["{";
       "  " ++ q "ios" ++ ": {";
       "    " ++ q "release" ++ ": {";
       "      " ++ q "codeSignIdentity" ++ ": " ++ q "X" ++ ",";
       "      " ++ q "provisioningProfile" ++ ": " ++ q "Y" ++ ",";
       "      " ++ q "developmentTeam" ++ ": " ++ q "Z" ++ ",";
       "      " ++ q "packageType" ++ ": " ++ q "development";
       "    }";
       "  }";
       "}"]
      (String JSON.newline "").
Proof. vm_compute. reflexivity. Qed.

Example escape_samples :
  JSON.escape "a<b&c" = "a\u00" ++ "3cb\u00" ++ "26c"
  ∧ JSON.escape "C:\dir" = "C:\\dir"
  ∧ JSON.escape "s3cret" = "s3cret".
Proof. repeat split; reflexivity. Qed.

Lemma append_assoc (a b c : string) : (a ++ b) ++ c = a ++ (b ++ c).
Proof.
  induction a as [|x a IH]; [done|].
  change (String x ((a ++ b) ++ c) = String x (a ++ (b ++ c))). by rewrite IH.
Qed.


Lemma HasPrefix_app pre s : GoStrings.HasPrefix (pre ++ s) pre = true.
Proof. induction pre as [|c pre IH]; simpl; [done|]. by rewrite Ascii.eqb_refl. Qed.

Lemma stripPrefix_app pre s : GoStrings.stripPrefix (pre ++ s) pre = Some s.
Proof. induction pre as [|c pre IH]; simpl; [done|]. by rewrite Ascii.eqb_refl. Qed.

Lemma TrimPrefix_app pre s : GoStrings.TrimPrefix (pre ++ s) pre = s.
Proof. unfold GoStrings.TrimPrefix. by rewrite stripPrefix_app. Qed.

Lemma Clean_nonempty p : GoPath.Clean p ≠ "".
Proof. unfold GoPath.Clean. by case_decide. Qed.

Lemma Join_nonempty tmpDir name : name ≠ "" → GoPath.Join [tmpDir; name] ≠ "".
Proof.
  intros Hname. simpl. repeat case_decide; try done; apply Clean_nonempty.
Qed.

(** ** Steps *)

Lemma outcome_bind {A B} (m : Step A) (k : A → Step B) :
  outcome (bind m k) = match outcome m with
                       | inl e => inl e
                       | inr a => outcome (k a)
                       end.
Proof. unfold bind, outcome. by destruct m as [tr [e|a]]. Qed.

Lemma trace_bind {A B} (m : Step A) (k : A → Step B) :
  trace (bind m k) = match outcome m with
                     | inl _ => trace m
                     | inr a => (trace m ++ trace (k a))%list
                     end.
Proof. unfold bind, outcome, trace. by destruct m as [tr [e|a]]. Qed.

Lemma step_eta {A} (s : Step A) : s = (trace s, outcome s).
Proof. by destruct s. Qed.

Lemma in_trace_bind {A B} (m : Step A) (k : A → Step B) e :
  In e (trace (bind m k)) →
  In e (trace m) ∨ ∃ a, outcome m = inr a ∧ In e (trace (k a)).
Proof.
  unfold bind, trace, outcome. destruct m as [tr [x|a]]; simpl; [by left|].
  intros [H|H]%in_app_or; [by left|]. right. by exists a.
Qed.

Lemma gets_app tr1 tr2 : gets (tr1 ++ tr2) = (gets tr1 ++ gets tr2)%list.
Proof. unfold gets. apply omap_app. Qed.

Lemma written_app tr1 tr2 : written (tr1 ++ tr2) = (written tr1 ++ written tr2)%list.
Proof. unfold written. apply omap_app. Qed.

(** ** The blocks of [main] *)

Lemma tmpDirPath_ok w tmpDir :
  NormalizedOSTempDirPath w "__bitrise-cordova-build-config__" = Some tmpDir →
  tmpDirPath w = ([EvTempDir "__bitrise-cordova-build-config__"], inr tmpDir).
Proof. intros H. unfold tmpDirPath. by rewrite H. Qed.

Lemma tmpDirPath_inv w e :
  In e (trace (tmpDirPath w)) → e = EvTempDir "__bitrise-cordova-build-config__".
Proof.
  unfold tmpDirPath, bind, emit, fail, exit, ret, trace. simpl.
  destruct (NormalizedOSTempDirPath w _); simpl; intuition.
Qed.

Lemma tmpDirPath_inr w tmpDir :
  outcome (tmpDirPath w) = inr tmpDir →
  NormalizedOSTempDirPath w "__bitrise-cordova-build-config__" = Some tmpDir.
Proof.
  unfold tmpDirPath, bind, emit, fail, exit, ret, outcome. simpl.
  destruct (NormalizedOSTempDirPath w _); simpl; congruence.
Qed.

Lemma tmpDirPath_outcome w e :
  outcome (tmpDirPath w) = inl e → e = Fail TmpDirError.
Proof.
  unfold tmpDirPath, bind, emit, fail, exit, ret, outcome. simpl.
  destruct (NormalizedOSTempDirPath w _); simpl; congruence.
Qed.

(** A keystore path and a one-entry map, or no keystore reference and no
    entry: what the Android block leaves when it does not fail. *)
Lemma androidBuildConfig_inv w configs tmpDir tr android :
  androidBuildConfig w configs tmpDir = (tr, inr android) →
  (KeystoreURL configs = "" ∧ android = ∅ ∧ tr = [])
  ∨ (KeystoreURL configs ≠ "" ∧
     ∃ keystorePath,
       android = {[ Configuration configs := androidItem configs keystorePath ]}
       ∧ located w configs tmpDir keystorePath).
Proof.
  unfold androidBuildConfig, located, download, bind, fail, exit, ret, emit.
  intros H. case_decide as Hurl.
  - right. split; [done|].
    destruct (GoStrings.HasPrefix _ _) eqn:Hpre; simpl in H.
    + destruct (AbsPath w _) as [absPth|] eqn:Habs; simpl in H; [|done].
      exists absPth. injection H as <- <-. eauto.
    + destruct (Get w _) as [resp|]; simpl in H; [|done].
      destruct (Copy w _ _ _); simpl in H; [|done].
      injection H as <- <-. eauto.
  - left. injection H as <- <-. split; [|done].
    by destruct (decide (KeystoreURL configs = "")).
Qed.

Lemma androidBuildConfig_trace w configs tmpDir :
  Forall keystoreEvent (trace (androidBuildConfig w configs tmpDir)).
Proof.
  unfold androidBuildConfig, download, bind, fail, exit, ret, emit, trace.
  repeat (case_decide || case_match || simpl in * || simplify_eq);
    repeat constructor.
Qed.

Lemma androidBuildConfig_local_trace w configs tmpDir :
  GoStrings.HasPrefix (KeystoreURL configs) "file://" = true →
  trace (androidBuildConfig w configs tmpDir) = [].
Proof.
  intros Hpre. unfold androidBuildConfig. case_decide; [|done].
  rewrite Hpre. unfold bind, fail, exit, ret, trace.
  by destruct (AbsPath w _).
Qed.

Lemma androidBuildConfig_outcome w configs tmpDir e :
  outcome (androidBuildConfig w configs tmpDir) = inl e →
  e = Fail PathResolutionError ∨ e = Fail DownloadError.
Proof.
  unfold androidBuildConfig, download, bind, emit, fail, exit, ret, outcome.
  repeat (case_decide || case_match || simpl in * ); intros; simplify_eq; auto.
Qed.

Lemma iosBuildConfig_cases configs :
  (PackageType configs = "none" ∧ iosBuildConfig configs = ∅)
  ∨ (PackageType configs ≠ "none"
     ∧ iosBuildConfig configs = {[ Configuration configs := iosItem configs ]}).
Proof.
  unfold iosBuildConfig. case_decide as H; [by right|left].
  split; [|done]. by destruct (decide (PackageType configs = "none")).
Qed.

Lemma assemble_inv w configs tmpDir tr doc :
  assemble w configs tmpDir = (tr, inr doc) →
  androidBuildConfig w configs tmpDir = (tr, inr (BuildConfiguration.Android doc))
  ∧ BuildConfiguration.IOS doc = iosBuildConfig configs.
Proof.
  unfold assemble, bind, ret. intros H.
  destruct (androidBuildConfig w configs tmpDir) as [tr' [e|android]]; simpl in H; [done|].
  injection H as <- <-. simpl. by rewrite app_nil_r.
Qed.

Lemma assemble_doc w configs tmpDir tr doc :
  assemble w configs tmpDir = (tr, inr doc) →
  BuildConfiguration.IOS doc = iosBuildConfig configs
  ∧ ((KeystoreURL configs = "" ∧ BuildConfiguration.Android doc = ∅ ∧ tr = [])
     ∨ (KeystoreURL configs ≠ "" ∧
        ∃ keystorePath,
          BuildConfiguration.Android doc
            = {[ Configuration configs := androidItem configs keystorePath ]}
          ∧ located w configs tmpDir keystorePath)).
Proof.
  intros [Ha Hi]%assemble_inv. split; [done|].
  by apply androidBuildConfig_inv in Ha.
Qed.

Lemma assemble_sections w configs tmpDir tr doc :
  assemble w configs tmpDir = (tr, inr doc) →
  (BuildConfiguration.Android doc = ∅
   ∨ ∃ a, BuildConfiguration.Android doc = {[ Configuration configs := a ]})
  ∧ (BuildConfiguration.IOS doc = ∅
     ∨ ∃ i, BuildConfiguration.IOS doc = {[ Configuration configs := i ]}).
Proof.
  intros [Hios Ha]%assemble_doc. split.
  - destruct Ha as [(_ & -> & _)|(_ & kp & -> & _)]; eauto.
  - rewrite Hios. destruct (iosBuildConfig_cases configs) as [[_ ->]|[_ ->]]; eauto.
Qed.

Lemma assemble_event w configs tmpDir e :
  In e (trace (assemble w configs tmpDir)) → keystoreEvent e.
Proof.
  intros H. pose proof (androidBuildConfig_trace w configs tmpDir) as Htr.
  unfold assemble, bind, ret, trace in *.
  destruct (androidBuildConfig w configs tmpDir) as [tr' [e'|android]]; simpl in *.
  - rewrite Forall_forall in Htr. by apply Htr, list_elem_of_In.
  - rewrite app_nil_r in H. rewrite Forall_forall in Htr. by apply Htr, list_elem_of_In.
Qed.

Lemma assemble_outcome w configs tmpDir e :
  outcome (assemble w configs tmpDir) = inl e →
  e = Fail PathResolutionError ∨ e = Fail DownloadError.
Proof.
  unfold assemble. rewrite outcome_bind.
  destruct (outcome (androidBuildConfig w configs tmpDir)) as [x|android] eqn:H; [|done].
  intros [= <-]. by apply androidBuildConfig_outcome in H.
Qed.

(** A remote reference: what the Android block does, answer by answer. *)
Lemma assemble_remote w configs tmpDir :
  remote configs →
  let keystorePath := GoPath.Join [tmpDir; "keystore.jks"] in
  assemble w configs tmpDir =
  match Get w (KeystoreURL configs) with
  | None => ([EvCreate keystorePath; EvGet (KeystoreURL configs)], inl (Fail DownloadError))
  | Some resp =>
      ([EvCreate keystorePath; EvGet (KeystoreURL configs); EvCopy keystorePath (Body resp)],
       if Copy w (Create w keystorePath) keystorePath (Body resp)
       then inr {| BuildConfiguration.Android :=
                     {[ Configuration configs := androidItem configs keystorePath ]};
                   BuildConfiguration.IOS := iosBuildConfig configs |}
       else inl (Fail DownloadError))
  end.
Proof.
  intros [Hurl Hpre] kp. unfold assemble, androidBuildConfig, download.
  case_decide; [|done]. rewrite Hpre.
  unfold bind, emit, fail, exit, ret. simpl.
  destruct (Get w _) as [resp|]; simpl; [|done].
  fold kp. by destruct (Copy w _ _ _).
Qed.

Lemma publish_inv w tmpDir bytes e :
  In e (trace (publish w tmpDir bytes)) →
  e = EvWriteFile (GoPath.Join [tmpDir; "build.json"]) bytes
  ∨ e = EvEnvman "BITRISE_CORDOVA_BUILD_CONFIGURATION" (GoPath.Join [tmpDir; "build.json"]).
Proof.
  unfold publish, exportEnvironmentWithEnvman, bind, emit, fail, exit, ret, trace. simpl.
  repeat (case_match; simpl); intuition.
Qed.

Lemma publish_outcome w tmpDir bytes f :
  outcome (publish w tmpDir bytes) = inl (Fail f) → f = PersistenceError ∨ f = PublishError.
Proof.
  unfold publish, exportEnvironmentWithEnvman, bind, emit, fail, exit, ret, outcome. simpl.
  repeat (case_match; simpl); intros; simplify_eq; auto.
Qed.


Lemma generated_empty_inputs w configs tmpDir doc :
  KeystoreURL configs = "" → PackageType configs = "none" →
  ¬ generated w configs tmpDir doc.
Proof.
  intros Hurl Hpt (_ & (tr & Hasm) & Hne). apply Hne.
  apply assemble_doc in Hasm as [Hios [(_ & Ha & _)|(Hurl' & _)]]; [|done].
  rewrite Ha, Hios. destruct (iosBuildConfig_cases configs) as [[_ ->]|[? _]]; done.
Qed.

(** ** The two [main]s *)

Lemma afterInputs_ext w configs (d1 d2 : BuildConfiguration.t → string) :
  (∀ doc, d1 doc = d2 doc) → afterInputs w configs d1 = afterInputs w configs d2.
Proof.
  intros Hd. unfold afterInputs, bind.
  destruct (tmpDirPath w) as [tr [e|tmpDir]]; simpl; [done|].
  destruct (assemble w configs tmpDir) as [tr' [e|doc]]; simpl; [done|].
  by rewrite Hd.
Qed.

(** Every event of what follows the reading of the inputs. *)
Lemma afterInputs_inv w configs (display : BuildConfiguration.t → string) e :
  In e (trace (afterInputs w configs display)) →
  e = EvTempDir "__bitrise-cordova-build-config__"
  ∨ keystoreEvent e
  ∨ ∃ tmpDir doc, generated w configs tmpDir doc
      ∧ (e = EvContent (display doc)
         ∨ e = EvWriteFile (GoPath.Join [tmpDir; "build.json"]) (MarshalIndent doc)
         ∨ e = EvEnvman "BITRISE_CORDOVA_BUILD_CONFIGURATION" (GoPath.Join [tmpDir; "build.json"])).
Proof.
  unfold afterInputs.
  intros [H|(tmpDir & Htmp & H)]%in_trace_bind.
  { left. by apply tmpDirPath_inv in H. }
  apply tmpDirPath_inr in Htmp.
  right. apply in_trace_bind in H as [H|(doc & Hdoc & H)].
  { left. by apply assemble_event in H. }
  right. case_decide as Hempty; [done|].
  exists tmpDir, doc. split.
  { split; [done|]. split; [|done].
    exists (assemble w configs tmpDir).1. unfold outcome in Hdoc.
    destruct (assemble w configs tmpDir); simpl in *. by subst. }
  apply in_trace_bind in H as [H|(_ & _ & H)].
  - left. simpl in H. by destruct H as [<-|[]].
  - right. by apply publish_inv in H.
Qed.

Lemma afterInputs_outcome w configs (display : BuildConfiguration.t → string) f :
  outcome (afterInputs w configs display) = inl (Fail f) →
  f ∈ [TmpDirError; PathResolutionError; DownloadError; PersistenceError; PublishError].
Proof.
  unfold afterInputs. rewrite outcome_bind.
  destruct (outcome (tmpDirPath w)) as [e|tmpDir] eqn:Htmp.
  { apply tmpDirPath_outcome in Htmp as ->. intros [= <-]. set_solver. }
  rewrite outcome_bind.
  destruct (outcome (assemble w configs tmpDir)) as [e|doc] eqn:Hdoc.
  { apply assemble_outcome in Hdoc as [-> | ->]; intros [= <-]; set_solver. }
  case_decide; [done|]. rewrite outcome_bind. simpl.
  intros [-> | ->]%publish_outcome; set_solver.
Qed.

(** With a scratch directory, what follows is the Android block and then the
    rest. *)
Lemma afterInputs_tmpDir w configs (display : BuildConfiguration.t → string) tmpDir :
  NormalizedOSTempDirPath w "__bitrise-cordova-build-config__" = Some tmpDir →
  let rest : Step unit :=
    buildConfig <~ assemble w configs tmpDir ;;
    if decide (size (BuildConfiguration.Android buildConfig) = 0
               ∧ size (BuildConfiguration.IOS buildConfig) = 0)
    then exit NothingToGenerate
    else emit (EvContent (display buildConfig)) ;;;
         publish w tmpDir (MarshalIndent buildConfig) in
  afterInputs w configs display
  = (EvTempDir "__bitrise-cordova-build-config__" :: trace rest, outcome rest).
Proof.
  intros Htmp rest. unfold afterInputs.
  rewrite (step_eta (bind _ _)), trace_bind, outcome_bind, (tmpDirPath_ok w tmpDir Htmp).
  done.
Qed.

Lemma gets_after_assemble w tmpDir (display : string) (doc : BuildConfiguration.t) :
  gets (trace (if decide (size (BuildConfiguration.Android doc) = 0
                          ∧ size (BuildConfiguration.IOS doc) = 0)
               then exit NothingToGenerate
               else emit (EvContent display) ;;;
                    publish w tmpDir (MarshalIndent doc))) = [].
Proof.
  case_decide; [done|].
  unfold publish, exportEnvironmentWithEnvman, bind, emit, fail, exit, ret, trace. simpl.
  repeat (case_match; simpl); done.
Qed.

Lemma V1_main_eq w :
  V1.main w = match V1.validate (inputs w) with
              | Some _ => fail InvalidInput
              | None => afterInputs w (inputs w) MarshalIndent
              end.
Proof. reflexivity. Qed.

Lemma V2_main_eq w :
  V2.main w = if decide (Configuration (inputs w) = "") then fail ConfigError
              else afterInputs w (inputs w)
                     (λ doc, V2.printableConfigBytes (inputs w) doc (MarshalIndent doc)).
Proof.
  unfold V2.main, V2.Parse.
  change (Configuration (inputs w)) with (Getenv w "configuration").
  by case_decide.
Qed.

Lemma printableConfigBytes_shown configs doc :
  V2.printableConfigBytes configs doc (MarshalIndent doc)
  = MarshalIndent (shown Second configs doc).
Proof. unfold V2.printableConfigBytes, shown. by destruct (V2.masked configs doc). Qed.

Lemma accepted_dec t configs : accepted t configs ∨ ¬ accepted t configs.
Proof.
  destruct t; simpl.
  - destruct (V1.validate configs); [right|left]; done.
  - destruct (decide (Configuration configs = "")); [right|left]; auto.
Qed.

(** A text whose check accepts the inputs goes on with them; it prints the
    document [shown]. *)
Lemma run_accepted t w :
  accepted t (inputs w) →
  run t w = afterInputs w (inputs w) (λ doc, MarshalIndent (shown t (inputs w) doc)).
Proof.
  destruct t; simpl; intros Hacc.
  - by rewrite V1_main_eq, Hacc.
  - rewrite V2_main_eq. case_decide; [done|].
    apply afterInputs_ext. intros doc. apply printableConfigBytes_shown.
Qed.

(** A text whose check rejects the inputs ends at once. *)
Lemma run_rejected t w :
  ¬ accepted t (inputs w) → run t w = ([], inl (Fail (rejection t))).
Proof.
  destruct t; simpl; intros Hrej.
  - rewrite V1_main_eq. by destruct (V1.validate (inputs w)).
  - rewrite V2_main_eq. case_decide; [done|]. by destruct Hrej.
Qed.

Lemma run_inv t w e :
  In e (trace (run t w)) →
  e = EvTempDir "__bitrise-cordova-build-config__"
  ∨ keystoreEvent e
  ∨ ∃ tmpDir doc,
      accepted t (inputs w)
      ∧ generated w (inputs w) tmpDir doc
      ∧ (e = EvContent (MarshalIndent (shown t (inputs w) doc))
         ∨ e = EvWriteFile (GoPath.Join [tmpDir; "build.json"]) (MarshalIndent doc)
         ∨ e = EvEnvman "BITRISE_CORDOVA_BUILD_CONFIGURATION" (GoPath.Join [tmpDir; "build.json"])).
Proof.
  destruct (accepted_dec t (inputs w)) as [Hacc|Hrej].
  - rewrite (run_accepted t w Hacc). intros H.
    apply afterInputs_inv in H as [H|[H|(tmpDir & doc & Hgen & H)]]; eauto 8.
  - rewrite (run_rejected t w Hrej). intros [].
Qed.

(** ** Validation *)

Lemma ValidateWithOptions_None value options :
  V1.ValidateWithOptions value options = None ↔ value ≠ "" ∧ value ∈ options.
Proof.
  unfold V1.ValidateWithOptions. repeat case_decide; naive_solver.
Qed.

Lemma validate_None configs :
  V1.validate configs = None ↔ validInputs configs.
Proof.
  unfold V1.validate, validInputs.
  destruct (V1.ValidateWithOptions (Configuration configs) _) eqn:H1.
  - split; [done|]. intros [Hc _].
    assert (V1.ValidateWithOptions (Configuration configs) ["release"; "debug"] = None) as H
      by (apply ValidateWithOptions_None; split; [|done];
          intros Hempty; rewrite Hempty in *; set_unfold; intuition discriminate).
    congruence.
  - apply ValidateWithOptions_None in H1 as [_ H1].
    destruct (V1.ValidateWithOptions (PackageType configs) _) eqn:H2.
    + split; [done|]. intros [_ Hp].
      assert (V1.ValidateWithOptions (PackageType configs)
                ["none"; "development"; "enterprise"; "ad-hoc"; "app-store"] = None) as H
        by (apply ValidateWithOptions_None; split; [|done];
            intros Hempty; rewrite Hempty in *; set_unfold; intuition discriminate).
      congruence.
    + apply ValidateWithOptions_None in H2 as [_ H2]. done.
Qed.

Lemma Parse_None w :
  V2.Parse w = None ↔ Configuration (inputs w) = "".
Proof.
  unfold V2.Parse. change (Configuration (inputs w)) with (Getenv w "configuration").
  by case_decide.
Qed.

(** Inputs that [validate] accepts pass the check of either text. *)
Lemma validInputs_accepted t configs : validInputs configs → accepted t configs.
Proof.
  intros Hval. destruct t; simpl; [by apply validate_None|].
  destruct Hval as [Hcfg _]. intros Hempty. rewrite Hempty in Hcfg.
  set_unfold. intuition discriminate.
Qed.

(** ** The marshalled document *)

Lemma encodeMap_singleton {V} (enc : V → JSON.json) k v :
  JSON.encodeMap enc {[ k := v ]} = JSON.JObject [(k, enc v)].
Proof. unfold JSON.encodeMap. by rewrite map_to_list_singleton. Qed.

Lemma mapField_empty {V} name (enc : V → JSON.json) :
  JSON.mapField name enc ∅ = [].
Proof. unfold JSON.mapField. by rewrite map_size_empty. Qed.

Lemma mapField_singleton {V} name (enc : V → JSON.json) k v :
  JSON.mapField name enc {[ k := v ]} = [(name, JSON.JObject [(k, enc v)])].
Proof.
  unfold JSON.mapField. rewrite map_size_singleton, encodeMap_singleton. done.
Qed.

Lemma android_fields a :
  JSON.member "keystore" (AndroidBuildConfigurationItem.encode a)
    = present (AndroidBuildConfigurationItem.Keystore a)
  ∧ JSON.member "storePassword" (AndroidBuildConfigurationItem.encode a)
    = present (AndroidBuildConfigurationItem.StorePassword a)
  ∧ JSON.member "alias" (AndroidBuildConfigurationItem.encode a)
    = present (AndroidBuildConfigurationItem.Alias a)
  ∧ JSON.member "password" (AndroidBuildConfigurationItem.encode a)
    = present (AndroidBuildConfigurationItem.Password a).
Proof.
  unfold AndroidBuildConfigurationItem.encode, JSON.encodeStruct, present. simpl.
  repeat case_decide; done.
Qed.

Lemma ios_fields i :
  JSON.member "codeSignIdentity" (IOSBuildConfigurationItem.encode i)
    = present (IOSBuildConfigurationItem.CodeSignIdentity i)
  ∧ JSON.member "provisioningProfile" (IOSBuildConfigurationItem.encode i)
    = present (IOSBuildConfigurationItem.ProvisioningProfile i)
  ∧ JSON.member "developmentTeam" (IOSBuildConfigurationItem.encode i)
    = present (IOSBuildConfigurationItem.DevelopmentTeam i)
  ∧ JSON.member "packageType" (IOSBuildConfigurationItem.encode i)
    = present (IOSBuildConfigurationItem.PackageType i).
Proof.
  unfold IOSBuildConfigurationItem.encode, JSON.encodeStruct, present. simpl.
  repeat case_decide; done.
Qed.

Lemma sections_of_document w configs tmpDir tr doc :
  assemble w configs tmpDir = (tr, inr doc) →
  ((KeystoreURL configs = ""
    ∧ JSON.member "android" (BuildConfiguration.encode doc) = None)
   ∨ (KeystoreURL configs ≠ ""
      ∧ ∃ keystorePath,
          located w configs tmpDir keystorePath
          ∧ JSON.member "android" (BuildConfiguration.encode doc)
            = Some (JSON.JObject
                      [(Configuration configs,
                        AndroidBuildConfigurationItem.encode
                          (androidItem configs keystorePath))])))
  ∧ JSON.member "ios" (BuildConfiguration.encode doc)
    = (if decide (PackageType configs = "none") then None
       else Some (JSON.JObject [(Configuration configs,
                                 IOSBuildConfigurationItem.encode (iosItem configs))])).
Proof.
  intros [Hios Ha]%assemble_doc. unfold BuildConfiguration.encode. rewrite Hios.
  destruct (iosBuildConfig_cases configs) as [[Hpt ->]|[Hpt ->]];
    destruct Ha as [(Hurl & -> & _)|(Hurl & kp & -> & Hloc)];
    rewrite ?mapField_empty, ?mapField_singleton; simpl;
    (split; [first [by left | right; split; [done|]; exists kp; by split]
            | by case_decide]).
Qed.

(** The text of an object around the value of its first member. *)
Lemma render_first_member depth k rest :
  ∃ pre post, ∀ v,
    JSON.render depth (JSON.JObject ((k, v) :: rest))
    = pre ++ JSON.render (S depth) v ++ post.
Proof.
  exists ("{" ++ JSON.lineBreak (S depth) ++ JSON.encodeString k ++ ": ").
  destruct rest as [|[k' v'] rest].
  - exists (JSON.lineBreak depth ++ "}"). intros v.
    cbn [JSON.render GoStrings.Join]. rewrite !append_assoc. done.
  - eexists. intros v.
    cbn [JSON.render GoStrings.Join]. rewrite !append_assoc. done.
Qed.

(** The marshalled document around its keystore path: the surrounding text
    depends on the inputs alone. *)
Lemma MarshalIndent_around_keystore configs :
  ∃ pre post, ∀ keystorePath, keystorePath ≠ "" →
    MarshalIndent
      {| BuildConfiguration.Android :=
           {[ Configuration configs := androidItem configs keystorePath ]};
         BuildConfiguration.IOS := iosBuildConfig configs |}
    = pre ++ JSON.encodeString keystorePath ++ post.
Proof.
  destruct (render_first_member 0 "android"
              (JSON.mapField "ios" IOSBuildConfigurationItem.encode (iosBuildConfig configs)))
    as (pre1 & post1 & H1).
  destruct (render_first_member 1 (Configuration configs) []) as (pre2 & post2 & H2).
  destruct (render_first_member 2 "keystore"
              (omap (λ kv : string * string,
                       if decide (kv.2 = "") then None else Some (kv.1, JSON.JString kv.2))
                    [("storePassword", KeystorePassword configs);
                     ("alias", KeystoreAlias configs);
                     ("password", PrivateKeyPassword configs)]))
    as (pre3 & post3 & H3).
  exists (pre1 ++ pre2 ++ pre3), (post3 ++ post2 ++ post1).
  intros kp Hkp. unfold MarshalIndent, BuildConfiguration.encode.
  cbn [BuildConfiguration.Android BuildConfiguration.IOS].
  rewrite mapField_singleton. cbn [app]. rewrite H1, H2.
  unfold AndroidBuildConfigurationItem.encode, JSON.encodeStruct, androidItem.
  cbn [omap list_omap AndroidBuildConfigurationItem.Keystore
       AndroidBuildConfigurationItem.StorePassword AndroidBuildConfigurationItem.Alias
       AndroidBuildConfigurationItem.Password fst snd].
  destruct (decide (kp = "")); [done|].
  rewrite H3. cbn [JSON.render]. rewrite !append_assoc. done.
Qed.








Lemma document_eta (doc : BuildConfiguration.t) android ios :
  BuildConfiguration.Android doc = android → BuildConfiguration.IOS doc = ios →
  doc = {| BuildConfiguration.Android := android; BuildConfiguration.IOS := ios |}.
Proof. destruct doc. simpl. by intros -> ->. Qed.

Lemma maskPasswords_androidItem configs keystorePath :
  V2.maskPasswords (androidItem configs keystorePath)
  = {| AndroidBuildConfigurationItem.Keystore := keystorePath;
       AndroidBuildConfigurationItem.StorePassword := hidden (KeystorePassword configs);
       AndroidBuildConfigurationItem.Alias := KeystoreAlias configs;
       AndroidBuildConfigurationItem.Password := hidden (PrivateKeyPassword configs) |}.
Proof.
  unfold V2.maskPasswords, androidItem, hidden. simpl.
  repeat (case_decide; simpl in * ); congruence.
Qed.

Lemma shown_sections configs doc keystorePath :
  BuildConfiguration.Android doc
    = {[ Configuration configs := androidItem configs keystorePath ]} →
  shown Second configs doc
  = {| BuildConfiguration.Android :=
         {[ Configuration configs :=
              {| AndroidBuildConfigurationItem.Keystore := keystorePath;
                 AndroidBuildConfigurationItem.StorePassword :=
                   hidden (KeystorePassword configs);
                 AndroidBuildConfigurationItem.Alias := KeystoreAlias configs;
                 AndroidBuildConfigurationItem.Password :=
                   hidden (PrivateKeyPassword configs) |} ]};
       BuildConfiguration.IOS := BuildConfiguration.IOS doc |}.
Proof.
  intros Ha. unfold shown, V2.masked.
  by rewrite Ha, lookup_singleton_eq, insert_singleton_eq, maskPasswords_androidItem.
Qed.

Lemma shown_without_android t configs doc :
  BuildConfiguration.Android doc = ∅ → shown t configs doc = doc.
Proof.
  intros Ha. destruct t; [done|]. unfold shown, V2.masked. by rewrite Ha, lookup_empty.
Qed.

(** The printed document has the sections of the assembled one, under the
    same key, with the same keystore. *)
Lemma shown_shape t configs doc :
  BuildConfiguration.IOS (shown t configs doc) = BuildConfiguration.IOS doc
  ∧ (BuildConfiguration.Android doc = ∅ →
     BuildConfiguration.Android (shown t configs doc) = ∅)
  ∧ (∀ keystorePath,
       BuildConfiguration.Android doc
         = {[ Configuration configs := androidItem configs keystorePath ]} →
       ∃ a, BuildConfiguration.Android (shown t configs doc)
              = {[ Configuration configs := a ]}
            ∧ AndroidBuildConfigurationItem.Keystore a = keystorePath).
Proof.
  destruct t.
  - simpl. split; [done|]. split; [done|]. intros kp Ha. by exists (androidItem configs kp).
  - split; [|split].
    + unfold shown, V2.masked. by destruct (_ !! _).
    + intros Ha. by rewrite shown_without_android.
    + intros kp Ha. rewrite (shown_sections _ _ _ Ha). eauto.
Qed.

(** The first text prints the document as it writes it, passwords included. *)
Example first_text_prints_the_passwords :
  firstPrinted (V1.main (servedWorld "/tmp/scratch1"))
  = firstWritten (V1.main (servedWorld "/tmp/scratch1"))
  ∧ GoStrings.Contains (firstPrinted (V1.main (servedWorld "/tmp/scratch1"))) "s3cret" = true.
Proof. split; vm_compute; reflexivity. Qed.

(** ** The claims *)




(** Nor does every written file hold the passwords: without a keystore
    reference there is no Android section to hold them. *)
Lemma password_absent_from_file :
  ∃ pth content,
    KeystorePassword (inputs iosOnlyWorld) ≠ ""
    ∧ In (EvWriteFile pth content) (trace (V2.main iosOnlyWorld))
    ∧ GoStrings.Contains content (KeystorePassword (inputs iosOnlyWorld)) = false.
Proof.
  exists "/tmp/scratch1/build.json", (firstWritten (V2.main iosOnlyWorld)).
  split; [discriminate|]. split; [in_trace | vm_compute; reflexivity].
Qed.

(** C2 (amended).  In either text, with inputs that pass its check, a scratch
    directory and a keystore reference to fetch: the run ends in
    [DownloadError], exit status 1, right after the failed call, when
    [http.Get] returns an error and when the copy of the body into
    [keystore.jks] returns one; when both succeed the run does not end in
    [DownloadError], whatever the status of the response.  The URL is fetched
    exactly once. *)
Theorem download_failure_ends_the_run (t : Text) (w : World) (tmpDir : string) :
  let configs := inputs w in
  let keystorePath := GoPath.Join [tmpDir; "keystore.jks"] in
  accepted t configs →
  remote configs →
  NormalizedOSTempDirPath w "__bitrise-cordova-build-config__" = Some tmpDir →
  match Get w (KeystoreURL configs) with
  | None =>
      run t w = ([EvTempDir "__bitrise-cordova-build-config__";
                  EvCreate keystorePath; EvGet (KeystoreURL configs)],
                 inl (Fail DownloadError))
  | Some resp =>
      if Copy w (Create w keystorePath) keystorePath (Body resp)
      then outcome (run t w) ≠ inl (Fail DownloadError)
      else run t w = ([EvTempDir "__bitrise-cordova-build-config__";
                       EvCreate keystorePath; EvGet (KeystoreURL configs);
                       EvCopy keystorePath (Body resp)],
                      inl (Fail DownloadError))
  end
  ∧ gets (trace (run t w)) = [KeystoreURL configs]
  ∧ (outcome (run t w) = inl (Fail DownloadError) → exitCode (run t w) = 1).
Proof.
  intros configs kp Hacc Hrem Htmp.
  pose proof (assemble_remote w configs tmpDir Hrem) as Hasm. cbn zeta in Hasm. fold kp in Hasm.
  rewrite (run_accepted t w Hacc), (afterInputs_tmpDir _ _ _ _ Htmp). fold configs.
  rewrite trace_bind, outcome_bind.
  split; [|split].
  - destruct (Get w _) as [resp|]; [destruct (Copy w _ _ _)|]; rewrite Hasm;
      cbn [outcome trace fst snd app BuildConfiguration.Android BuildConfiguration.IOS];
      try done.
    rewrite map_size_singleton. case_decide as Hsz; [by destruct Hsz|].
    rewrite outcome_bind. cbn. intros [= Hout]. apply publish_outcome in Hout. by destruct Hout.
  - destruct (Get w _) as [resp|]; [destruct (Copy w _ _ _)|]; rewrite Hasm;
      cbn [outcome trace fst snd app]; try done.
    change (gets (?a :: ?b :: ?c :: ?d :: ?l)) with (gets ([a; b; c; d] ++ l)).
    rewrite gets_app, (gets_after_assemble w tmpDir). done.
  - unfold exitCode. cbn [outcome snd]. by intros ->.
Qed.

Lemma download_failure_witness :
  V1.main offlineWorld
  = ([EvTempDir "__bitrise-cordova-build-config__";
      EvCreate "/tmp/scratch1/keystore.jks"; EvGet "https://example.com/a.jks"],
     inl (Fail DownloadError)).
Proof.
  refine (proj1 (download_failure_ends_the_run First offlineWorld "/tmp/scratch1" _ _ _)).
  - reflexivity.
  - split; [discriminate | reflexivity].
  - reflexivity.
Defined.

(** C2 as stated fails: the server answers 404, the error page is stored as
    the keystore and the run ends with status 0. *)
Lemma not_found_is_stored :
  remote (inputs notFoundWorld)
  ∧ (StatusCode <$> Get notFoundWorld (KeystoreURL (inputs notFoundWorld))) = Some 404
  ∧ In (EvCopy "/tmp/scratch1/keystore.jks" "Not Found") (trace (V1.main notFoundWorld))
  ∧ outcome (V1.main notFoundWorld) = inr tt
  ∧ exitCode (V1.main notFoundWorld) = 0.
Proof.
  split; [split; [discriminate|reflexivity]|].
  split; [reflexivity|]. split; [in_trace|]. split; vm_compute; reflexivity.
Qed.

(** C3 (amended).  [validate] accepts exactly the inputs whose
    [configuration] is [release] or [debug] and whose [package_type] is one
    of the five allowed values, and the [main] that calls it ends in
    [InvalidInput], with exit status 1, exactly on the others.  The [main]
    that reads its inputs with [stepconf.Parse] restricts neither field to its
    values: it rejects an empty [configuration] and nothing else. *)
Theorem validate_accepts_exactly_the_enumerated_values (w : World) :
  let configs := inputs w in
  (V1.validate configs = None ↔ validInputs configs)
  ∧ (outcome (V1.main w) = inl (Fail InvalidInput) ↔ ¬ validInputs configs)
  ∧ (¬ validInputs configs → exitCode (V1.main w) = 1)
  ∧ (V2.Parse w = None ↔ Configuration configs = "")
  ∧ (outcome (V2.main w) = inl (Fail ConfigError) ↔ Configuration configs = "")
  ∧ outcome (V2.main w) ≠ inl (Fail InvalidInput).
Proof.
  intros configs. split; [apply validate_None|].
  pose proof (validate_None configs) as Hval.
  split; [|split; [|split; [apply Parse_None|]]].
  - rewrite V1_main_eq. fold configs.
    destruct (V1.validate configs) as [err|] eqn:Hv.
    + assert (¬ validInputs configs) by (intros ?%Hval; done). done.
    + assert (validInputs configs) by (by apply Hval).
      split; [|done]. intros Hout%afterInputs_outcome. set_unfold. intuition discriminate.
  - intros Hinv. rewrite V1_main_eq. fold configs.
    destruct (V1.validate configs) as [err|] eqn:Hv; [done|].
    destruct Hinv. by apply Hval.
  - rewrite V2_main_eq. fold configs. case_decide as Hempty.
    + split; [done|]. done.
    + split; [split|].
      * intros Hout%afterInputs_outcome. set_unfold. intuition discriminate.
      * done.
      * intros Hout%afterInputs_outcome. set_unfold. intuition discriminate.
Qed.

Lemma validate_witness :
  outcome (V1.main stagingWorld) = inl (Fail InvalidInput)
  ∧ V1.validate (inputs emptyWorld) = None.
Proof.
  split.
  - apply (validate_accepts_exactly_the_enumerated_values stagingWorld).
    unfold validInputs. compute_done.
  - apply (validate_accepts_exactly_the_enumerated_values emptyWorld).
    unfold validInputs. compute_done.
Defined.

(** C3 as stated fails on the second text: a configuration that is neither
    [release] nor [debug] is accepted, and the run ends with exit status 0. *)
Lemma staging_is_accepted_by_stepconf :
  Configuration (inputs stagingWorld) = "staging"
  ∧ ¬ validInputs (inputs stagingWorld)
  ∧ V2.Parse stagingWorld = Some (inputs stagingWorld)
  ∧ V2.main stagingWorld
    = ([EvTempDir "__bitrise-cordova-build-config__"], inl NothingToGenerate)
  ∧ exitCode (V2.main stagingWorld) = 0.
Proof.
  split; [reflexivity|]. split; [unfold validInputs; compute_done|].
  repeat split; reflexivity.
Qed.

(** C4 (amended).  In either text, with an empty [keystore_url] and
    [package_type] [none], no [build.json] is written and nothing is handed
    to envman; and when the inputs pass the check of the text and the scratch
    directory could be created, the run does nothing but create that
    directory and ends with exit status 0. *)
Theorem nothing_to_generate (t : Text) (w : World) :
  let configs := inputs w in
  KeystoreURL configs = "" → PackageType configs = "none" →
  (∀ pth content, ¬ In (EvWriteFile pth content) (trace (run t w)))
  ∧ (∀ key value, ¬ In (EvEnvman key value) (trace (run t w)))
  ∧ (accepted t configs →
     ∀ tmpDir, NormalizedOSTempDirPath w "__bitrise-cordova-build-config__" = Some tmpDir →
     run t w = ([EvTempDir "__bitrise-cordova-build-config__"], inl NothingToGenerate)
     ∧ exitCode (run t w) = 0).
Proof.
  intros configs Hurl Hpt.
  assert (∀ e, In e (trace (run t w)) →
               e = EvTempDir "__bitrise-cordova-build-config__" ∨ keystoreEvent e) as Hev.
  { intros e [H|[H|(tmpDir & doc & _ & Hgen & _)]]%run_inv; auto.
    by apply generated_empty_inputs in Hgen. }
  split; [|split].
  - intros pth content [H|H]%Hev; done.
  - intros key value [H|H]%Hev; done.
  - intros Hacc tmpDir Htmp.
    rewrite (run_accepted t w Hacc). fold configs.
    unfold exitCode, afterInputs, tmpDirPath, assemble, androidBuildConfig, iosBuildConfig.
    rewrite Htmp, Hurl, Hpt. done.
Qed.

Lemma nothing_to_generate_witness :
  V1.main emptyWorld = ([EvTempDir "__bitrise-cordova-build-config__"], inl NothingToGenerate)
  ∧ exitCode (V1.main emptyWorld) = 0.
Proof.
  apply (nothing_to_generate First emptyWorld) with (tmpDir := "/tmp/scratch1").
  - reflexivity.
  - reflexivity.
  - reflexivity.
  - reflexivity.
Defined.

(** C4 as stated fails: with nothing to generate and a configuration that is
    neither [release] nor [debug], the run ends with exit status 1. *)
Lemma nothing_to_generate_needs_valid_configuration :
  KeystoreURL (inputs stagingWorld) = "" ∧ PackageType (inputs stagingWorld) = "none"
  ∧ V1.main stagingWorld = ([], inl (Fail InvalidInput))
  ∧ exitCode (V1.main stagingWorld) = 1.
Proof. repeat split; reflexivity. Qed.

(** C5.  In either text, when [keystore_url] is [file://] followed by a path,
    no URL is fetched in the run, and every document printed or written has
    an Android section whose one entry has for [keystore] what [AbsPath]
    makes of that path. *)
Theorem local_keystore_is_absolutized_without_network
    (t : Text) (w : World) (path : string) :
  let configs := inputs w in
  KeystoreURL configs = "file://" ++ path →
  (∀ url, ¬ In (EvGet url) (trace (run t w)))
  ∧ (∀ content, In (EvContent content) (trace (run t w)) →
     ∃ absPth printedDoc a,
       AbsPath w path = Some absPth
       ∧ content = MarshalIndent printedDoc
       ∧ BuildConfiguration.Android printedDoc = {[ Configuration configs := a ]}
       ∧ AndroidBuildConfigurationItem.Keystore a = absPth)
  ∧ (∀ pth content, In (EvWriteFile pth content) (trace (run t w)) →
     ∃ absPth doc a,
       AbsPath w path = Some absPth
       ∧ content = MarshalIndent doc
       ∧ BuildConfiguration.Android doc = {[ Configuration configs := a ]}
       ∧ AndroidBuildConfigurationItem.Keystore a = absPth).
Proof.
  intros configs Hurl.
  assert (GoStrings.HasPrefix (KeystoreURL configs) "file://" = true) as Hpre
    by (rewrite Hurl; apply HasPrefix_app).
  assert (∀ tmpDir doc, generated w configs tmpDir doc →
            ∃ absPth, AbsPath w path = Some absPth
              ∧ BuildConfiguration.Android doc
                  = {[ Configuration configs := androidItem configs absPth ]}) as Hdoc.
  { intros tmpDir doc (_ & (tr & Hasm) & _).
    apply assemble_doc in Hasm as [_ [(Hempty & _)|(_ & kp & Ha & Hloc)]].
    { rewrite Hurl in Hempty. done. }
    destruct Hloc as [[_ Habs]|[Hno _]]; [|congruence].
    rewrite Hurl, TrimPrefix_app in Habs. eauto. }
  split; [|split].
  - intros url Hin.
    destruct (accepted_dec t (inputs w)) as [Hacc|Hrej];
      [|by rewrite (run_rejected t w Hrej) in Hin].
    rewrite (run_accepted t w Hacc) in Hin. unfold afterInputs in Hin.
    apply in_trace_bind in Hin as [Hin|(tmpDir & _ & Hin)].
    { by apply tmpDirPath_inv in Hin. }
    apply in_trace_bind in Hin as [Hin|(doc & _ & Hin)].
    { unfold assemble in Hin. apply in_trace_bind in Hin as [Hin|(a & _ & [])].
      rewrite androidBuildConfig_local_trace in Hin; [destruct Hin | done]. }
    case_decide; [done|].
    apply in_trace_bind in Hin as [[Hin|[]]|(_ & _ & [Hin|Hin]%publish_inv)]; done.
  - intros content [H|[H|(tmpDir & doc & _ & Hgen & H)]]%run_inv; [done..|].
    destruct (Hdoc _ _ Hgen) as (absPth & Habs & Ha).
    destruct H as [H|[H|H]]; [|done..]. injection H as ->.
    destruct (shown_shape t configs doc) as (_ & _ & Hshape).
    destruct (Hshape _ Ha) as (a & Hshown & Hkeystore).
    exists absPth, (shown t configs doc), a. done.
  - intros pth content [H|[H|(tmpDir & doc & _ & Hgen & H)]]%run_inv; [done..|].
    destruct (Hdoc _ _ Hgen) as (absPth & Habs & Ha).
    destruct H as [H|[H|H]]; [done| |done]. injection H as -> ->.
    exists absPth, doc, (androidItem configs absPth). done.
Qed.

Lemma local_keystore_witness :
  ∃ absPth printedDoc a,
    AbsPath localWorld "/tmp/a.jks" = Some absPth
    ∧ firstPrinted (V1.main localWorld) = MarshalIndent printedDoc
    ∧ BuildConfiguration.Android printedDoc = {[ "debug" := a ]}
    ∧ AndroidBuildConfigurationItem.Keystore a = absPth.
Proof.
  destruct (local_keystore_is_absolutized_without_network First localWorld "/tmp/a.jks")
    as (_ & Hprinted & _).
  - reflexivity.
  - apply (Hprinted (firstPrinted (V1.main localWorld))). in_trace.
Defined.

(** C6 (amended).  The [main] that checks its inputs with [validate] does so
    before any I/O: on a [configuration] or [package_type] outside the
    allowed values it ends in [InvalidInput] with exit status 1 and an empty
    trace: no scratch directory, no file, no fetch.  The [main] that parses
    its inputs with stepconf stops in the same way on an empty
    [configuration] only; on any other inputs it goes on. *)
Theorem input_check_precedes_io (w : World) :
  let configs := inputs w in
  (¬ validInputs configs →
   V1.main w = ([], inl (Fail InvalidInput))
   ∧ (∀ e, ¬ In e (trace (V1.main w)))
   ∧ exitCode (V1.main w) = 1)
  ∧ (Configuration configs = "" →
     V2.main w = ([], inl (Fail ConfigError))
     ∧ exitCode (V2.main w) = 1)
  ∧ (Configuration configs ≠ "" →
     V2.main w = afterInputs w configs (λ doc, MarshalIndent (shown Second configs doc))).
Proof.
  intros configs. split; [|split].
  - intros Hinv. rewrite <- validate_None in Hinv.
    change (V1.main w) with (run First w).
    rewrite (run_rejected First w Hinv). split; [done|]. split; [|done]. intros e [].
  - intros Hempty.
    assert (¬ accepted Second (inputs w)) as Hrej by (intros Hacc; by apply Hacc).
    change (V2.main w) with (run Second w).
    by rewrite (run_rejected Second w Hrej).
  - intros Hne. apply (run_accepted Second w Hne).
Qed.

Lemma input_check_witness :
  V1.main stagingWorld = ([], inl (Fail InvalidInput)).
Proof.
  apply (input_check_precedes_io stagingWorld).
  unfold validInputs. compute_done.
Defined.

(** C6 as stated fails on the second text: under a configuration that is
    neither [release] nor [debug] the scratch directory is created, the
    keystore is fetched and the run ends with exit status 0. *)
Lemma staging_run_fetches_the_keystore :
  ¬ validInputs (inputs stagingSignedWorld)
  ∧ In (EvTempDir "__bitrise-cordova-build-config__") (trace (V2.main stagingSignedWorld))
  ∧ In (EvGet "https://example.com/a.jks") (trace (V2.main stagingSignedWorld))
  ∧ exitCode (V2.main stagingSignedWorld) = 0.
Proof.
  split; [unfold validInputs; compute_done|].
  split; [in_trace|]. split; [in_trace|]. vm_compute. reflexivity.
Qed.

(** C7.  In either text, every document printed comes from an assembled
    document, after the inputs passed the check of the text; in both
    documents each of the two maps, when not empty, has exactly one entry,
    keyed by the configuration, so that no key of the Android map differs
    from a key of the iOS map. *)
Theorem sections_share_the_configuration_key (t : Text) (w : World) (content : string) :
  let configs := inputs w in
  In (EvContent content) (trace (run t w)) →
  ∃ doc,
    content = MarshalIndent (shown t configs doc)
    ∧ accepted t configs
    ∧ ∀ d, d = doc ∨ d = shown t configs doc →
        (BuildConfiguration.Android d ≠ ∅ →
         size (BuildConfiguration.Android d) = 1
         ∧ dom (BuildConfiguration.Android d) = {[ Configuration configs ]})
        ∧ (BuildConfiguration.IOS d ≠ ∅ →
           size (BuildConfiguration.IOS d) = 1
           ∧ dom (BuildConfiguration.IOS d) = {[ Configuration configs ]})
        ∧ (∀ k k', k ∈ dom (BuildConfiguration.Android d) →
                   k' ∈ dom (BuildConfiguration.IOS d) → k = k').
Proof.
  intros configs [H|[H|(tmpDir & doc & Hacc & Hgen & H)]]%run_inv; [done..|].
  destruct H as [H|[H|H]]; [|done..]. injection H as ->.
  exists doc. split; [done|]. split; [done|].
  destruct Hgen as (_ & (tr & Hasm) & _).
  pose proof (assemble_doc _ _ _ _ _ Hasm) as [Hios Hand].
  apply assemble_sections in Hasm as [Ha Hi].
  assert (∀ V (m : gmap string V),
            (m = ∅ ∨ ∃ v, m = {[ Configuration configs := v ]}) →
            (m ≠ ∅ → size m = 1 ∧ dom m = {[ Configuration configs ]})
            ∧ (∀ k, k ∈ dom m → k = Configuration configs)) as Hone.
  { intros V m [->|[v ->]].
    - split; [done|]. intros k. rewrite dom_empty_L. set_solver.
    - rewrite map_size_singleton, dom_singleton_L. split; [done|]. set_solver. }
  assert (BuildConfiguration.Android (shown t configs doc) = ∅
          ∨ ∃ a, BuildConfiguration.Android (shown t configs doc)
                 = {[ Configuration configs := a ]}) as Ha'.
  { destruct (shown_shape t configs doc) as (_ & Hempty & Hentry).
    destruct Hand as [(_ & Hnone & _)|(_ & kp & Hsome & _)].
    - left. by apply Hempty.
    - right. destruct (Hentry _ Hsome) as (a & Hshown & _). eauto. }
  assert (BuildConfiguration.IOS (shown t configs doc) = ∅
          ∨ ∃ i, BuildConfiguration.IOS (shown t configs doc)
                 = {[ Configuration configs := i ]}) as Hi'.
  { destruct (shown_shape t configs doc) as (-> & _). done. }
  intros d [->| ->].
  - destruct (Hone _ _ Ha) as [Ha1 Ha2]. destruct (Hone _ _ Hi) as [Hi1 Hi2].
    split; [done|]. split; [done|]. intros k k' ->%Ha2 ->%Hi2. done.
  - destruct (Hone _ _ Ha') as [Ha1 Ha2]. destruct (Hone _ _ Hi') as [Hi1 Hi2].
    split; [done|]. split; [done|]. intros k k' ->%Ha2 ->%Hi2. done.
Qed.

Lemma sections_share_witness :
  ∃ doc, firstPrinted (V2.main localWorld)
         = MarshalIndent (shown Second (inputs localWorld) doc)
         ∧ (size (BuildConfiguration.Android doc) ≤ 1)%nat.
Proof.
  destruct (sections_share_the_configuration_key Second localWorld
              (firstPrinted (V2.main localWorld)))
    as (doc & Hdoc & _ & Hshape).
  - in_trace.
  - exists doc. split; [exact Hdoc|].
    destruct (Hshape doc (or_introl eq_refl)) as (Ha & _).
    destruct (decide (BuildConfiguration.Android doc = ∅)) as [->|Hne].
    + rewrite map_size_empty. lia.
    + destruct (Ha Hne) as [-> _]. lia.
Defined.

(** C8.  In either text, every [build.json] written is the text of the
    marshalled document, in which the [android] member is absent exactly when
    [keystore_url] is empty, the [ios] member is absent exactly when
    [package_type] is [none], and each field of the one entry of a section is
    present with its value when that value is not empty and absent when it
    is. *)
Theorem empty_fields_and_untriggered_sections_are_omitted
    (t : Text) (w : World) (pth content : string) :
  let configs := inputs w in
  In (EvWriteFile pth content) (trace (run t w)) →
  ∃ doc,
    content = JSON.render 0 (BuildConfiguration.encode doc)
    ∧ (JSON.member "android" (BuildConfiguration.encode doc) = None
       ↔ KeystoreURL configs = "")
    ∧ (JSON.member "ios" (BuildConfiguration.encode doc) = None
       ↔ PackageType configs = "none")
    ∧ (∀ section, JSON.member "android" (BuildConfiguration.encode doc) = Some section →
       ∃ a, section = JSON.JObject [(Configuration configs,
                                     AndroidBuildConfigurationItem.encode a)]
         ∧ JSON.member "keystore" (AndroidBuildConfigurationItem.encode a)
           = present (AndroidBuildConfigurationItem.Keystore a)
         ∧ JSON.member "storePassword" (AndroidBuildConfigurationItem.encode a)
           = present (KeystorePassword configs)
         ∧ JSON.member "alias" (AndroidBuildConfigurationItem.encode a)
           = present (KeystoreAlias configs)
         ∧ JSON.member "password" (AndroidBuildConfigurationItem.encode a)
           = present (PrivateKeyPassword configs))
    ∧ (∀ section, JSON.member "ios" (BuildConfiguration.encode doc) = Some section →
       ∃ i, section = JSON.JObject [(Configuration configs,
                                     IOSBuildConfigurationItem.encode i)]
         ∧ JSON.member "codeSignIdentity" (IOSBuildConfigurationItem.encode i)
           = present (CodeSignIdentity configs)
         ∧ JSON.member "provisioningProfile" (IOSBuildConfigurationItem.encode i)
           = present (ProvisioningProfile configs)
         ∧ JSON.member "developmentTeam" (IOSBuildConfigurationItem.encode i)
           = present (DevelopmentTeam configs)
         ∧ JSON.member "packageType" (IOSBuildConfigurationItem.encode i)
           = present (PackageType configs)).
Proof.
  intros configs [H|[H|(tmpDir & doc & _ & Hgen & H)]]%run_inv; [done..|].
  destruct H as [H|[H|H]]; [done| |done]. injection H as -> ->.
  exists doc. split; [done|].
  destruct Hgen as (_ & (tr & Hasm) & _).
  apply sections_of_document in Hasm as [Ha Hi].
  split; [|split; [|split]].
  - destruct Ha as [[Hurl ->]|(Hurl & kp & _ & ->)]; split; done.
  - rewrite Hi. case_decide; split; done.
  - intros section Hsec.
    destruct Ha as [[_ Ha]|(_ & kp & _ & Ha)]; rewrite Ha in Hsec; [done|].
    injection Hsec as <-. exists (androidItem configs kp). split; [done|].
    apply android_fields.
  - intros section Hsec. rewrite Hi in Hsec. case_decide; [done|].
    injection Hsec as <-. exists (iosItem configs). split; [done|].
    apply ios_fields.
Qed.

Lemma omission_witness :
  ∃ doc,
    firstWritten (V1.main iosOnlyWorld) = JSON.render 0 (BuildConfiguration.encode doc)
    ∧ JSON.member "android" (BuildConfiguration.encode doc) = None.
Proof.
  destruct (empty_fields_and_untriggered_sections_are_omitted First iosOnlyWorld
              "/tmp/scratch1/build.json" (firstWritten (V1.main iosOnlyWorld)))
    as (doc & Hdoc & Handroid & _).
  - in_trace.
  - exists doc. split; [exact Hdoc|]. apply Handroid. reflexivity.
Defined.

(** C9 (amended).  Two runs of one text on the same inputs, on machines where
    [AbsPath] answers alike, that both write [build.json]: the two contents
    are the same bytes when the keystore is not fetched (no reference, or a
    [file://] one); when it is fetched they are the same bytes before and
    after the one place that holds the path of [keystore.jks] in the scratch
    directory of the run. *)
Theorem same_inputs_same_bytes_up_to_the_scratch_path
    (t : Text) (w1 w2 : World) (pth1 content1 pth2 content2 : string) :
  let configs := inputs w1 in
  inputs w2 = configs →
  (∀ pth, AbsPath w1 pth = AbsPath w2 pth) →
  In (EvWriteFile pth1 content1) (trace (run t w1)) →
  In (EvWriteFile pth2 content2) (trace (run t w2)) →
  (¬ remote configs → content1 = content2)
  ∧ (remote configs →
     ∃ tmpDir1 tmpDir2 pre post,
       NormalizedOSTempDirPath w1 "__bitrise-cordova-build-config__" = Some tmpDir1
       ∧ NormalizedOSTempDirPath w2 "__bitrise-cordova-build-config__" = Some tmpDir2
       ∧ content1 = pre ++ JSON.encodeString (GoPath.Join [tmpDir1; "keystore.jks"]) ++ post
       ∧ content2 = pre ++ JSON.encodeString (GoPath.Join [tmpDir2; "keystore.jks"]) ++ post).
Proof.
  intros configs Hsame Habs
    [H1|[H1|(tmpDir1 & doc1 & _ & Hgen1 & H1)]]%run_inv
    [H2|[H2|(tmpDir2 & doc2 & _ & Hgen2 & H2)]]%run_inv; try done.
  destruct H1 as [H1|[H1|H1]]; [done| |done]. injection H1 as -> ->.
  destruct H2 as [H2|[H2|H2]]; [done| |done]. injection H2 as -> ->.
  rewrite Hsame in Hgen2. fold configs in Hgen1.
  destruct Hgen1 as (Htmp1 & (tr1 & Hasm1) & _).
  destruct Hgen2 as (Htmp2 & (tr2 & Hasm2) & _).
  apply assemble_doc in Hasm1 as [Hi1 Ha1]. apply assemble_doc in Hasm2 as [Hi2 Ha2].
  destruct Ha1 as [(Hurl & Ha1 & _)|(Hurl & kp1 & Ha1 & Hloc1)];
    destruct Ha2 as [(Hurl' & Ha2 & _)|(Hurl' & kp2 & Ha2 & Hloc2)]; try done.
  - split; [|by intros [? _]]. intros _.
    by rewrite (document_eta doc1 _ _ Ha1 Hi1), (document_eta doc2 _ _ Ha2 Hi2).
  - rewrite (document_eta doc1 _ _ Ha1 Hi1), (document_eta doc2 _ _ Ha2 Hi2).
    destruct Hloc1 as [[Hpre Hk1]|[Hpre ->]]; destruct Hloc2 as [[Hpre' Hk2]|[Hpre' ->]];
      try congruence.
    + split; [|intros [_ ?]; congruence]. intros _.
      rewrite Habs in Hk1. by simplify_eq.
    + split; [intros []; by split|]. intros _.
      destruct (MarshalIndent_around_keystore configs) as (pre & post & Hframe).
      exists tmpDir1, tmpDir2, pre, post.
      split; [done|]. split; [done|].
      split; apply Hframe, Join_nonempty; discriminate.
Qed.

Lemma same_inputs_witness :
  ∃ pre post,
    firstWritten (V1.main (servedWorld "/tmp/scratch1"))
    = pre ++ JSON.encodeString "/tmp/scratch1/keystore.jks" ++ post
    ∧ firstWritten (V1.main (servedWorld "/tmp/scratch2"))
      = pre ++ JSON.encodeString "/tmp/scratch2/keystore.jks" ++ post.
Proof.
  destruct (same_inputs_same_bytes_up_to_the_scratch_path First
              (servedWorld "/tmp/scratch1") (servedWorld "/tmp/scratch2")
              "/tmp/scratch1/build.json" (firstWritten (V1.main (servedWorld "/tmp/scratch1")))
              "/tmp/scratch2/build.json" (firstWritten (V1.main (servedWorld "/tmp/scratch2"))))
    as [_ Hremote].
  - reflexivity.
  - intros pth. reflexivity.
  - in_trace.
  - in_trace.
  - destruct Hremote as (tmpDir1 & tmpDir2 & pre & post & H1 & H2 & Hc1 & Hc2).
    + split; [discriminate | reflexivity].
    + injection H1 as <-. injection H2 as <-.
      exists pre, post. split; [exact Hc1 | exact Hc2].
Defined.

(** C9 as stated fails: the same inputs, with a [file://] reference relative
    to the working directory, in two checkouts with two scratch directories.
    Both runs reach their end, and the two files differ, in the keystore path
    [AbsPath] made in each working directory; neither file holds the path of
    its scratch directory. *)
Lemma working_directory_shows_in_the_file :
  inputs (checkoutWorld "/work" "/tmp/scratch1")
  = inputs (checkoutWorld "/builds/app" "/tmp/scratch2")
  ∧ outcome (V1.main (checkoutWorld "/work" "/tmp/scratch1")) = inr tt
  ∧ outcome (V1.main (checkoutWorld "/builds/app" "/tmp/scratch2")) = inr tt
  ∧ ∃ content1 content2,
      written (trace (V1.main (checkoutWorld "/work" "/tmp/scratch1")))
      = [("/tmp/scratch1/build.json", content1)]
      ∧ written (trace (V1.main (checkoutWorld "/builds/app" "/tmp/scratch2")))
        = [("/tmp/scratch2/build.json", content2)]
      ∧ content1 ≠ content2
      ∧ GoStrings.Contains content1 (JSON.encodeString "/work/a.jks") = true
      ∧ GoStrings.Contains content2 (JSON.encodeString "/builds/app/a.jks") = true
      ∧ GoStrings.Contains content1 "/tmp/scratch1" = false
      ∧ GoStrings.Contains content2 "/tmp/scratch2" = false.
Proof.
  split; [reflexivity|]. split; [reflexivity|]. split; [reflexivity|].
  exists (firstWritten (V1.main (checkoutWorld "/work" "/tmp/scratch1"))),
         (firstWritten (V1.main (checkoutWorld "/builds/app" "/tmp/scratch2"))).
  split; [reflexivity|]. split; [reflexivity|].
  split; [vm_compute; discriminate|].
  repeat split; vm_compute; reflexivity.
Qed.

(** C10.  Provided [AbsPath] does not answer the empty path: whenever the
    document assembled by either text has an Android section, its one entry
    has a non-empty [keystore], which is what [AbsPath] made of the rest of a
    [file://] reference, or else [keystore.jks] joined to the scratch
    directory; the [keystore] member is therefore present in the marshalled
    entry. *)
Theorem android_keystore_is_never_empty (w : World) (configs : ConfigsModel.t)
    (tmpDir : string) (tr : list Event) (doc : BuildConfiguration.t) :
  AbsPath w (GoStrings.TrimPrefix (KeystoreURL configs) "file://") ≠ Some "" →
  assemble w configs tmpDir = (tr, inr doc) →
  BuildConfiguration.Android doc ≠ ∅ →
  ∃ a,
    BuildConfiguration.Android doc = {[ Configuration configs := a ]}
    ∧ AndroidBuildConfigurationItem.Keystore a ≠ ""
    ∧ (if GoStrings.HasPrefix (KeystoreURL configs) "file://"
       then AbsPath w (GoStrings.TrimPrefix (KeystoreURL configs) "file://")
            = Some (AndroidBuildConfigurationItem.Keystore a)
       else AndroidBuildConfigurationItem.Keystore a = GoPath.Join [tmpDir; "keystore.jks"])
    ∧ JSON.member "keystore" (AndroidBuildConfigurationItem.encode a)
      = Some (JSON.JString (AndroidBuildConfigurationItem.Keystore a)).
Proof.
  intros Habs [_ Ha]%assemble_doc Hne.
  destruct Ha as [(_ & Hempty & _)|(_ & kp & Ha & Hloc)]; [done|].
  exists (androidItem configs kp). split; [done|].
  assert (kp ≠ "") as Hkp.
  { destruct Hloc as [[_ H]|[_ ->]]; [congruence|].
    apply Join_nonempty. discriminate. }
  split; [done|]. split.
  - destruct Hloc as [[-> H]|[-> ->]]; done.
  - unfold AndroidBuildConfigurationItem.encode, JSON.encodeStruct. simpl.
    destruct (decide (kp = "")); [done|]. reflexivity.
Qed.

Lemma android_keystore_witness :
  ∃ a,
    BuildConfiguration.Android
      {| BuildConfiguration.Android :=
           {[ "debug" := androidItem (inputs localWorld) "/tmp/a.jks" ]};
         BuildConfiguration.IOS := iosBuildConfig (inputs localWorld) |}
    = {[ "debug" := a ]}
    ∧ AndroidBuildConfigurationItem.Keystore a ≠ "".
Proof.
  destruct (android_keystore_is_never_empty localWorld (inputs localWorld)
              "/tmp/scratch1" []
              {| BuildConfiguration.Android :=
                   {[ "debug" := androidItem (inputs localWorld) "/tmp/a.jks" ]};
                 BuildConfiguration.IOS := iosBuildConfig (inputs localWorld) |})
    as (a & Ha & Hkeystore & _).
  - discriminate.
  - vm_compute. reflexivity.
  - apply (map_non_empty_singleton (M := gmap string)).
  - exists a. split; [exact Ha | exact Hkeystore].
Defined.

(** ** The blocks of [main] as tables *)

Lemma assemble_table w configs tmpDir :
  let document android :=
    {| BuildConfiguration.Android := android;
       BuildConfiguration.IOS := iosBuildConfig configs |} in
  assemble w configs tmpDir =
  if decide (KeystoreURL configs = "") then ([], inr (document ∅))
  else if GoStrings.HasPrefix (KeystoreURL configs) "file://" then
    match AbsPath w (GoStrings.TrimPrefix (KeystoreURL configs) "file://") with
    | None => ([], inl (Fail PathResolutionError))
    | Some absPth =>
        ([], inr (document {[ Configuration configs := androidItem configs absPth ]}))
    end
  else
    let keystorePath := GoPath.Join [tmpDir; "keystore.jks"] in
    match Get w (KeystoreURL configs) with
    | None => ([EvCreate keystorePath; EvGet (KeystoreURL configs)], inl (Fail DownloadError))
    | Some resp =>
        ([EvCreate keystorePath; EvGet (KeystoreURL configs); EvCopy keystorePath (Body resp)],
         if Copy w (Create w keystorePath) keystorePath (Body resp)
         then inr (document {[ Configuration configs := androidItem configs keystorePath ]})
         else inl (Fail DownloadError))
    end.
Proof.
  intros document. case_decide as Hurl.
  - unfold assemble, androidBuildConfig. rewrite Hurl. done.
  - destruct (GoStrings.HasPrefix _ _) eqn:Hpre.
    + unfold assemble, androidBuildConfig. case_decide; [|done]. rewrite Hpre.
      unfold bind, fail, exit, ret. by destruct (AbsPath w _).
    + by rewrite (assemble_remote w configs tmpDir (conj Hurl Hpre)).
Qed.

Lemma publish_table w tmpDir bytes :
  let pth := GoPath.Join [tmpDir; "build.json"] in
  publish w tmpDir bytes =
  if WriteBytesToFile w pth bytes then
    ([EvWriteFile pth bytes; EvEnvman "BITRISE_CORDOVA_BUILD_CONFIGURATION" pth],
     if EnvmanAdd w "BITRISE_CORDOVA_BUILD_CONFIGURATION" pth then inr tt
     else inl (Fail PublishError))
  else ([EvWriteFile pth bytes], inl (Fail PersistenceError)).
Proof.
  intros pth. unfold publish, exportEnvironmentWithEnvman. fold pth.
  unfold bind, emit, fail, exit, ret. simpl.
  destruct (WriteBytesToFile w pth bytes); simpl; [|done].
  by destruct (EnvmanAdd w _ pth).
Qed.

(** What follows the assembling, for a document that has a section. *)
Lemma afterAssemble_table w tmpDir (display : string) doc :
  ¬ (size (BuildConfiguration.Android doc) = 0 ∧ size (BuildConfiguration.IOS doc) = 0) →
  (if decide (size (BuildConfiguration.Android doc) = 0
              ∧ size (BuildConfiguration.IOS doc) = 0)
   then exit NothingToGenerate
   else emit (EvContent display) ;;; publish w tmpDir (MarshalIndent doc))
  = (EvContent display :: trace (publish w tmpDir (MarshalIndent doc)),
     outcome (publish w tmpDir (MarshalIndent doc))).
Proof.
  intros Hne. case_decide; [done|].
  rewrite (step_eta (bind _ _)), trace_bind, outcome_bind. done.
Qed.

(** The emptiness test on an assembled document is a test on two inputs. *)
Lemma assembled_empty w configs tmpDir tr doc :
  assemble w configs tmpDir = (tr, inr doc) →
  (size (BuildConfiguration.Android doc) = 0 ∧ size (BuildConfiguration.IOS doc) = 0)
  ↔ (KeystoreURL configs = "" ∧ PackageType configs = "none").
Proof.
  intros [Hios Ha]%assemble_doc. rewrite Hios.
  destruct (iosBuildConfig_cases configs) as [[Hpt ->]|[Hpt ->]];
    destruct Ha as [(Hurl & -> & _)|(Hurl & kp & -> & _)];
    rewrite ?map_size_empty, ?map_size_singleton; naive_solver.
Qed.

Lemma run_rest t w tmpDir :
  accepted t (inputs w) →
  NormalizedOSTempDirPath w "__bitrise-cordova-build-config__" = Some tmpDir →
  run t w =
  match assemble w (inputs w) tmpDir with
  | (tr, inl e) => (EvTempDir "__bitrise-cordova-build-config__" :: tr, inl e)
  | (tr, inr doc) =>
      if decide (size (BuildConfiguration.Android doc) = 0
                 ∧ size (BuildConfiguration.IOS doc) = 0)
      then (EvTempDir "__bitrise-cordova-build-config__" :: tr, inl NothingToGenerate)
      else
        (((EvTempDir "__bitrise-cordova-build-config__" :: tr)
            ++ EvContent (MarshalIndent (shown t (inputs w) doc))
            :: trace (publish w tmpDir (MarshalIndent doc)))%list,
         outcome (publish w tmpDir (MarshalIndent doc)))
  end.
Proof.
  intros Hacc Htmp.
  rewrite (run_accepted t w Hacc), (afterInputs_tmpDir _ _ _ _ Htmp).
  rewrite trace_bind, outcome_bind.
  destruct (assemble w (inputs w) tmpDir) as [tr [e|doc]]; cbn [trace outcome fst snd]; [done|].
  case_decide as Hempty.
  - cbn. by rewrite app_nil_r.
  - rewrite trace_bind, outcome_bind. cbn [trace outcome emit fst snd]. done.
Qed.

Lemma run_no_tmpDir t w :
  accepted t (inputs w) →
  NormalizedOSTempDirPath w "__bitrise-cordova-build-config__" = None →
  run t w = ([EvTempDir "__bitrise-cordova-build-config__"], inl (Fail TmpDirError)).
Proof.
  intros Hacc Htmp. rewrite (run_accepted t w Hacc).
  unfold afterInputs, tmpDirPath. rewrite Htmp. done.
Qed.

Lemma keystoreEvent_projections tr :
  Forall keystoreEvent tr → written tr = [] ∧ printed tr = [].
Proof.
  induction 1 as [|e tr He _ [IHw IHp]]; [done|].
  destruct e; try done; simpl; auto.
Qed.

Lemma assemble_keystoreEvents w configs tmpDir :
  Forall keystoreEvent (trace (assemble w configs tmpDir)).
Proof.
  rewrite Forall_forall. intros e He. apply list_elem_of_In in He.
  by apply assemble_event in He.
Qed.

Ltac sublist_of_full :=
  unfold fullTrace; cbn [app trace outcome fst snd];
  repeat first [ apply sublist_nil | apply sublist_skip | apply sublist_cons ].

(** The five ways a run goes. *)
Lemma run_cases t w :
  let configs := inputs w in
  (¬ accepted t configs ∧ run t w = ([], inl (Fail (rejection t))))
  ∨ (accepted t configs
     ∧ NormalizedOSTempDirPath w "__bitrise-cordova-build-config__" = None
     ∧ run t w = ([EvTempDir "__bitrise-cordova-build-config__"], inl (Fail TmpDirError)))
  ∨ (∃ tmpDir tr e,
       accepted t configs
       ∧ NormalizedOSTempDirPath w "__bitrise-cordova-build-config__" = Some tmpDir
       ∧ assemble w configs tmpDir = (tr, inl e)
       ∧ run t w = (EvTempDir "__bitrise-cordova-build-config__" :: tr, inl e))
  ∨ (∃ tmpDir tr doc,
       accepted t configs
       ∧ NormalizedOSTempDirPath w "__bitrise-cordova-build-config__" = Some tmpDir
       ∧ assemble w configs tmpDir = (tr, inr doc)
       ∧ (KeystoreURL configs = "" ∧ PackageType configs = "none")
       ∧ run t w = (EvTempDir "__bitrise-cordova-build-config__" :: tr,
                    inl NothingToGenerate))
  ∨ (∃ tmpDir tr doc,
       accepted t configs
       ∧ NormalizedOSTempDirPath w "__bitrise-cordova-build-config__" = Some tmpDir
       ∧ assemble w configs tmpDir = (tr, inr doc)
       ∧ ¬ (KeystoreURL configs = "" ∧ PackageType configs = "none")
       ∧ run t w
         = (((EvTempDir "__bitrise-cordova-build-config__" :: tr)
               ++ EvContent (MarshalIndent (shown t configs doc))
               :: trace (publish w tmpDir (MarshalIndent doc)))%list,
            outcome (publish w tmpDir (MarshalIndent doc)))).
Proof.
  intros configs.
  destruct (accepted_dec t (inputs w)) as [Hacc|Hrej].
  2:{ left. split; [done|]. by apply run_rejected. }
  right.
  destruct (NormalizedOSTempDirPath w "__bitrise-cordova-build-config__") as [tmpDir|] eqn:Htmp.
  2:{ left. split; [done|]. split; [done|]. by apply run_no_tmpDir. }
  right. rewrite (run_rest t w tmpDir Hacc Htmp).
  destruct (assemble w (inputs w) tmpDir) as [tr [e|doc]] eqn:Hasm.
  { left. by exists tmpDir, tr, e. }
  right. pose proof (assembled_empty _ _ _ _ _ Hasm) as Hempty.
  case_decide as Hsize.
  - left. exists tmpDir, tr, doc. apply Hempty in Hsize. done.
  - right. exists tmpDir, tr, doc. rewrite Hempty in Hsize. done.
Qed.

(** How the Android block fails. *)
Lemma assemble_fails w configs tmpDir tr e :
  assemble w configs tmpDir = (tr, inl e) ↔
  (e = Fail PathResolutionError ∧ tr = []
   ∧ KeystoreURL configs ≠ ""
   ∧ GoStrings.HasPrefix (KeystoreURL configs) "file://" = true
   ∧ AbsPath w (GoStrings.TrimPrefix (KeystoreURL configs) "file://") = None)
  ∨ (e = Fail DownloadError ∧ remote configs
     ∧ ((Get w (KeystoreURL configs) = None
         ∧ tr = [EvCreate (GoPath.Join [tmpDir; "keystore.jks"]);
                 EvGet (KeystoreURL configs)])
        ∨ ∃ resp,
            Get w (KeystoreURL configs) = Some resp
            ∧ Copy w (Create w (GoPath.Join [tmpDir; "keystore.jks"]))
                (GoPath.Join [tmpDir; "keystore.jks"]) (Body resp) = false
            ∧ tr = [EvCreate (GoPath.Join [tmpDir; "keystore.jks"]);
                    EvGet (KeystoreURL configs);
                    EvCopy (GoPath.Join [tmpDir; "keystore.jks"]) (Body resp)])).
Proof.
  rewrite assemble_table. cbv zeta. unfold remote.
  destruct (decide (KeystoreURL configs = "")) as [Hurl|Hurl];
    [|destruct (GoStrings.HasPrefix _ _) eqn:Hpre;
      [destruct (AbsPath w _) eqn:Habs
      |destruct (Get w _) as [resp|] eqn:Hget; [destruct (Copy w _ _ _) eqn:Hcopy|]]].
  all: split; [intros [= <- <-] || intros [=]|intros H]; try naive_solver.
  destruct H as [(_ & _ & _ & Hf & _)|(_ & _ & [(Hf & _)|(r & Hr & Hc & _)])];
    congruence.
Qed.

Lemma run_published t w tmpDir tr doc :
  accepted t (inputs w) →
  NormalizedOSTempDirPath w "__bitrise-cordova-build-config__" = Some tmpDir →
  assemble w (inputs w) tmpDir = (tr, inr doc) →
  ¬ (KeystoreURL (inputs w) = "" ∧ PackageType (inputs w) = "none") →
  run t w
  = (((EvTempDir "__bitrise-cordova-build-config__" :: tr)
        ++ EvContent (MarshalIndent (shown t (inputs w) doc))
        :: trace (publish w tmpDir (MarshalIndent doc)))%list,
     outcome (publish w tmpDir (MarshalIndent doc))).
Proof.
  intros Hacc Htmp Hasm Hne. rewrite (run_rest t w tmpDir Hacc Htmp), Hasm.
  case_decide as Hsize; [|done]. by apply (assembled_empty _ _ _ _ _ Hasm) in Hsize.
Qed.

Lemma run_assemble_failed t w tmpDir tr e :
  accepted t (inputs w) →
  NormalizedOSTempDirPath w "__bitrise-cordova-build-config__" = Some tmpDir →
  assemble w (inputs w) tmpDir = (tr, inl e) →
  run t w = (EvTempDir "__bitrise-cordova-build-config__" :: tr, inl e).
Proof. intros Hacc Htmp Hasm. by rewrite (run_rest t w tmpDir Hacc Htmp), Hasm. Qed.

Ltac by_run_cases t w :=
  destruct (run_cases t w)
    as [(Hrej & Hrun)
       |[(Hacc & Htmp & Hrun)
        |[(tmpDir & tr & e & Hacc & Htmp & Hasm & Hrun)
         |[(tmpDir & tr & doc & Hacc & Htmp & Hasm & Hempty & Hrun)
          |(tmpDir & tr & doc & Hacc & Htmp & Hasm & Hne & Hrun)]]]];
  rewrite Hrun; cbn [outcome trace fst snd].

Lemma assemble_never_publish_failure w configs tmpDir tr e :
  assemble w configs tmpDir = (tr, inl e) →
  e = Fail PathResolutionError ∨ e = Fail DownloadError.
Proof. intros H. apply (assemble_outcome w configs tmpDir). unfold outcome. by rewrite H. Qed.

Lemma run_events t w e :
  In e (trace (run t w)) →
  e = EvTempDir "__bitrise-cordova-build-config__"
  ∨ ∃ tmpDir,
      NormalizedOSTempDirPath w "__bitrise-cordova-build-config__" = Some tmpDir
      ∧ match e with
        | EvTempDir _ => False
        | EvCreate pth | EvCopy pth _ => pth = GoPath.Join [tmpDir; "keystore.jks"]
        | EvGet url => url = KeystoreURL (inputs w)
        | EvContent _ => True
        | EvWriteFile pth _ => pth = GoPath.Join [tmpDir; "build.json"]
        | EvEnvman key value =>
            key = "BITRISE_CORDOVA_BUILD_CONFIGURATION"
            ∧ value = GoPath.Join [tmpDir; "build.json"]
        end.
Proof.
  destruct (accepted_dec t (inputs w)) as [Hacc|Hrej].
  2:{ rewrite (run_rejected t w Hrej). intros []. }
  destruct (NormalizedOSTempDirPath w "__bitrise-cordova-build-config__") as [tmpDir|] eqn:Htmp.
  2:{ rewrite (run_no_tmpDir t w Hacc Htmp). intros [<-|[]]. by left. }
  rewrite (run_rest t w tmpDir Hacc Htmp), assemble_table. cbv zeta.
  destruct (decide (KeystoreURL (inputs w) = ""));
    [|destruct (GoStrings.HasPrefix _ _);
      [destruct (AbsPath w _)
      |destruct (Get w _) as [resp|]; [destruct (Copy w _ _ _)|]]];
    try case_decide; rewrite ?publish_table; cbv zeta;
    try destruct (WriteBytesToFile w _ _); try destruct (EnvmanAdd w _ _);
    cbn [trace fst snd app In]; intros Hin;
    repeat (destruct Hin as [<-|Hin]; [(by left) || (right; by exists tmpDir)|]); done.
Qed.

Lemma effects_app tr1 tr2 : effects (tr1 ++ tr2) = (effects tr1 ++ effects tr2)%list.
Proof. apply List.filter_app. Qed.

(** ** Masking and the members of the document *)

Lemma maskPasswords_fields (a : AndroidBuildConfigurationItem.t) :
  V2.maskPasswords a
  = {| AndroidBuildConfigurationItem.Keystore := AndroidBuildConfigurationItem.Keystore a;
       AndroidBuildConfigurationItem.StorePassword :=
         hidden (AndroidBuildConfigurationItem.StorePassword a);
       AndroidBuildConfigurationItem.Alias := AndroidBuildConfigurationItem.Alias a;
       AndroidBuildConfigurationItem.Password :=
         hidden (AndroidBuildConfigurationItem.Password a) |}.
Proof.
  destruct a as [k sp al pw]. unfold V2.maskPasswords, hidden.
  cbn [AndroidBuildConfigurationItem.Keystore AndroidBuildConfigurationItem.StorePassword
       AndroidBuildConfigurationItem.Alias AndroidBuildConfigurationItem.Password].
  destruct (decide (pw = "")), (decide (sp = ""));
    repeat case_decide; cbn in *; congruence.
Qed.

Lemma hidden_hidden s : hidden (hidden s) = hidden s.
Proof. unfold hidden. repeat case_decide; done. Qed.

Lemma hidden_empty s : hidden s = "" ↔ s = "".
Proof. unfold hidden. case_decide; split; done. Qed.

Lemma keys_encodeStruct (fs : list (string * string)) :
  keys (JSON.encodeStruct fs) = (filter (λ kv : string * string, kv.2 ≠ "") fs).*1.
Proof.
  unfold JSON.encodeStruct, keys.
  induction fs as [|[k v] fs IH]; [done|].
  cbn [omap list_omap snd fst]. rewrite filter_cons. cbn [snd].
  destruct (decide (v = "")); case_decide; try done.
  cbn [fmap list_fmap fst]. f_equal. exact IH.
Qed.

Lemma filter_sublist_fst (fs : list (string * string)) (P : string * string → Prop)
    `{∀ x, Decision (P x)} :
  (filter P fs).*1 `sublist_of` fs.*1.
Proof. apply fmap_sublist, sublist_filter. Qed.

#[local] Instance leb_key_total {V} :
  Total (λ a b : string * V, String.leb a.1 b.1 : Prop).
Proof.
  intros a b. destruct (String.leb_total a.1 b.1) as [H|H]; rewrite H; [left|right]; done.
Qed.

Lemma Sorted_fmap_key {V W} (f : V → W) (l : list (string * V)) :
  Sorted (λ a b : string * V, String.leb a.1 b.1 : Prop) l →
  Sorted (λ a b : string, String.leb a b : Prop)
    ((λ kv : string * V, (kv.1, f kv.2)) <$> l).*1.
Proof.
  induction 1 as [|x l _ IH Hhd]; [constructor|].
  cbn [fmap list_fmap fst]. constructor; [exact IH|].
  destruct Hhd; constructor. done.
Qed.

(** ** Paths below a clean directory *)

Lemma splitByte_nonempty sep s : GoStrings.splitByte sep s ≠ [].
Proof.
  destruct s as [|c s]; [done|]. cbn [GoStrings.splitByte].
  destruct (Ascii.eqb c sep); [done|]. by destruct (GoStrings.splitByte sep s).
Qed.

Lemma splitByte_app sep name s :
  GoStrings.splitByte sep name = [name] →
  GoStrings.splitByte sep (name ++ String sep s) = name :: GoStrings.splitByte sep s.
Proof.
  induction name as [|c name IH].
  - intros _. change ("" ++ String sep s) with (String sep s).
    cbn [GoStrings.splitByte]. by rewrite Ascii.eqb_refl.
  - change (String c name ++ String sep s) with (String c (name ++ String sep s)).
    cbn [GoStrings.splitByte]. destruct (Ascii.eqb c sep); [done|].
    destruct (GoStrings.splitByte sep name) as [|piece pieces] eqn:Hsplit.
    { by apply splitByte_nonempty in Hsplit. }
    intros [= -> ->]. by rewrite IH.
Qed.

Lemma splitByte_Join names :
  names ≠ [] → Forall plainName names →
  GoStrings.splitByte "/" (GoStrings.Join names "/") = names.
Proof.
  induction names as [|name names IH]; [done|]. intros _ Hall.
  apply Forall_cons in Hall as [(_ & _ & _ & Hname) Hall].
  destruct names as [|name' names]; [done|].
  change (GoStrings.Join (name :: name' :: names) "/")
    with (name ++ String "/" (GoStrings.Join (name' :: names) "/")).
  rewrite (splitByte_app _ _ _ Hname), IH; done.
Qed.

Lemma cleanStep_plain rooted names kept :
  Forall plainName names →
  fold_left (GoPath.cleanStep rooted) names kept = (rev names ++ kept)%list.
Proof.
  revert kept. induction names as [|name names IH]; intros kept Hall; [done|].
  apply Forall_cons in Hall as [(H1 & H2 & H3 & _) Hall].
  cbn [fold_left]. rewrite (IH _ Hall). unfold GoPath.cleanStep.
  repeat case_decide; try naive_solver.
  cbn [rev]. by rewrite <- app_assoc.
Qed.

Lemma Clean_cleanAbsolute names :
  names ≠ [] → Forall plainName names →
  GoPath.Clean ("/" ++ GoStrings.Join names "/") = "/" ++ GoStrings.Join names "/".
Proof.
  intros Hne Hall. unfold GoPath.Clean.
  change ("/" ++ GoStrings.Join names "/") with (String "/" (GoStrings.Join names "/")).
  cbn [GoStrings.HasPrefix GoStrings.splitByte Ascii.eqb Bool.eqb].
  rewrite (splitByte_Join _ Hne Hall). cbn [fold_left].
  change (GoPath.cleanStep true [] "") with (@nil string).
  rewrite (cleanStep_plain _ _ _ Hall), app_nil_r, rev_involutive.
  by case_decide.
Qed.

Lemma Join_snoc names name :
  names ≠ [] →
  GoStrings.Join (names ++ [name]) "/" = GoStrings.Join names "/" ++ "/" ++ name.
Proof.
  induction names as [|n names IH]; [done|]. intros _.
  destruct names as [|n' names].
  - done.
  - change (GoStrings.Join ((n :: n' :: names) ++ [name]) "/")
      with (n ++ "/" ++ GoStrings.Join ((n' :: names) ++ [name]) "/").
    rewrite IH by done.
    change (GoStrings.Join (n :: n' :: names) "/")
      with (n ++ "/" ++ GoStrings.Join (n' :: names) "/").
    by rewrite !append_assoc.
Qed.

Lemma Join_in_cleanAbsolute tmpDir name :
  cleanAbsolute tmpDir → plainName name →
  GoPath.Join [tmpDir; name] = tmpDir ++ "/" ++ name.
Proof.
  intros (n & ns & Hall & ->) Hname.
  cbn [GoPath.Join]. case_decide as Hempty; [done|].
  change (GoStrings.Join ["/" ++ GoStrings.Join (n :: ns) "/"; name] "/")
    with (("/" ++ GoStrings.Join (n :: ns) "/") ++ "/" ++ name).
  rewrite !append_assoc, <- (Join_snoc (n :: ns) name) by done.
  apply Clean_cleanAbsolute; [done|].
  apply Forall_app. split; [done|]. by apply Forall_singleton.
Qed.

(** ** Further properties of the program *)

(** X1.  In either text the events of a run are taken, in this order and
    each at most once, from: the scratch directory is asked for, [keystore.jks]
    is created in it, [keystore_url] is fetched, a body is copied into
    [keystore.jks], the document is printed, [build.json] is written in the
    scratch directory, its path is handed to envman.  Whatever happens after
    the first of them happens in the directory [NormalizedOSTempDirPath]
    gave. *)
Theorem events_come_in_one_order (t : Text) (w : World) :
  ∃ tmpDir body display content,
    trace (run t w)
      `sublist_of` fullTrace (GoPath.Join [tmpDir; "keystore.jks"]) (KeystoreURL (inputs w))
                     body display (GoPath.Join [tmpDir; "build.json"]) content
    ∧ (∀ e, In e (trace (run t w)) →
            e ≠ EvTempDir "__bitrise-cordova-build-config__" →
            NormalizedOSTempDirPath w "__bitrise-cordova-build-config__" = Some tmpDir).
Proof.
  destruct (accepted_dec t (inputs w)) as [Hacc|Hrej].
  2:{ rewrite (run_rejected t w Hrej). exists "", "", "", "".
      split; [apply sublist_nil_l | intros e []]. }
  destruct (NormalizedOSTempDirPath w "__bitrise-cordova-build-config__") as [tmpDir|] eqn:Htmp.
  2:{ rewrite (run_no_tmpDir t w Hacc Htmp). exists "", "", "", "".
      split; [sublist_of_full | by intros e [<-|[]]]. }
  exists tmpDir.
  rewrite (run_rest t w tmpDir Hacc Htmp), assemble_table. cbv zeta.
  destruct (decide (KeystoreURL (inputs w) = ""));
    [|destruct (GoStrings.HasPrefix _ _);
      [destruct (AbsPath w _)
      |destruct (Get w _) as [resp|]; [destruct (Copy w _ _ _)|]]];
    try case_decide; rewrite ?publish_table; cbv zeta;
    try destruct (WriteBytesToFile w _ _); try destruct (EnvmanAdd w _ _);
    do 3 eexists; (split; [sublist_of_full | done]).
  Unshelve. all: exact "".
Qed.

Lemma events_order_witness :
  ∃ tmpDir body display content,
    trace (run Second (servedWorld "/tmp/scratch1"))
      `sublist_of` fullTrace (GoPath.Join [tmpDir; "keystore.jks"])
                     (KeystoreURL (inputs (servedWorld "/tmp/scratch1")))
                     body display (GoPath.Join [tmpDir; "build.json"]) content
    ∧ (∀ e, In e (trace (run Second (servedWorld "/tmp/scratch1"))) →
            e ≠ EvTempDir "__bitrise-cordova-build-config__" →
            NormalizedOSTempDirPath (servedWorld "/tmp/scratch1")
              "__bitrise-cordova-build-config__" = Some tmpDir).
Proof. exact (events_come_in_one_order Second (servedWorld "/tmp/scratch1")). Defined.

(** X2.  In either text a run reaches the end of [main] exactly when the
    inputs pass the check of the text, the scratch directory is made, the
    Android block does not fail, the document has a section, [build.json] is
    written and envman takes its path.  Such a run has written one file, the
    marshalled document at [build.json] in the scratch directory, and the
    hand-over of that path to envman is the last thing it did. *)
Theorem run_succeeds_exactly_when_published (t : Text) (w : World) :
  (outcome (run t w) = inr tt ↔
   ∃ tmpDir tr doc,
     accepted t (inputs w)
     ∧ NormalizedOSTempDirPath w "__bitrise-cordova-build-config__" = Some tmpDir
     ∧ assemble w (inputs w) tmpDir = (tr, inr doc)
     ∧ ¬ (KeystoreURL (inputs w) = "" ∧ PackageType (inputs w) = "none")
     ∧ WriteBytesToFile w (GoPath.Join [tmpDir; "build.json"]) (MarshalIndent doc) = true
     ∧ EnvmanAdd w "BITRISE_CORDOVA_BUILD_CONFIGURATION"
         (GoPath.Join [tmpDir; "build.json"]) = true)
  ∧ (outcome (run t w) = inr tt →
     ∃ tmpDir doc,
       written (trace (run t w))
       = [(GoPath.Join [tmpDir; "build.json"], MarshalIndent doc)]
       ∧ last (trace (run t w))
         = Some (EvEnvman "BITRISE_CORDOVA_BUILD_CONFIGURATION"
                   (GoPath.Join [tmpDir; "build.json"]))).
Proof.
  split; [split|].
  - by_run_cases t w; try done.
    rewrite publish_table. cbv zeta.
    destruct (WriteBytesToFile w _ _) eqn:Hw; [|done].
    destruct (EnvmanAdd w _ _) eqn:He; [|done].
    intros _. exists tmpDir, tr, doc. done.
  - intros (tmpDir & tr & doc & Hacc & Htmp & Hasm & Hne & Hw & He).
    rewrite (run_published t w tmpDir tr doc Hacc Htmp Hasm Hne), publish_table.
    cbv zeta. by rewrite Hw, He.
  - by_run_cases t w; try done.
    rewrite publish_table. cbv zeta.
    destruct (WriteBytesToFile w _ _) eqn:Hw; [|done].
    destruct (EnvmanAdd w _ _) eqn:He; [|done].
    intros _. exists tmpDir, doc.
    pose proof (assemble_keystoreEvents w (inputs w) tmpDir) as Hk.
    rewrite Hasm in Hk. cbn [trace fst] in Hk.
    apply keystoreEvent_projections in Hk as [Hk _].
    cbn [trace fst app]. split.
    + change (written (EvTempDir ?x :: ?l)) with (written l).
      rewrite written_app, Hk. done.
    + rewrite app_comm_cons, last_app. done.
Qed.

Lemma run_succeeds_witness :
  ∃ tmpDir doc,
    written (trace (run Second (servedWorld "/tmp/scratch1")))
    = [(GoPath.Join [tmpDir; "build.json"], MarshalIndent doc)]
    ∧ last (trace (run Second (servedWorld "/tmp/scratch1")))
      = Some (EvEnvman "BITRISE_CORDOVA_BUILD_CONFIGURATION"
                (GoPath.Join [tmpDir; "build.json"])).
Proof.
  apply (proj2 (run_succeeds_exactly_when_published Second (servedWorld "/tmp/scratch1"))).
  reflexivity.
Defined.

(** X3.  In either text a run ends with "Failed to write build.json file"
    exactly when it got as far as a document with a section and
    [WriteBytesToFile] failed on it; nothing is handed to envman in such a
    run. *)
Theorem write_failure_stops_the_handoff (t : Text) (w : World) :
  (outcome (run t w) = inl (Fail PersistenceError) ↔
   ∃ tmpDir tr doc,
     accepted t (inputs w)
     ∧ NormalizedOSTempDirPath w "__bitrise-cordova-build-config__" = Some tmpDir
     ∧ assemble w (inputs w) tmpDir = (tr, inr doc)
     ∧ ¬ (KeystoreURL (inputs w) = "" ∧ PackageType (inputs w) = "none")
     ∧ WriteBytesToFile w (GoPath.Join [tmpDir; "build.json"]) (MarshalIndent doc) = false)
  ∧ (outcome (run t w) = inl (Fail PersistenceError) →
     ∀ key value, ¬ In (EvEnvman key value) (trace (run t w))).
Proof.
  split; [split|].
  - by_run_cases t w; try done.
    + destruct t; done.
    + intros [= ->]. apply assemble_never_publish_failure in Hasm as [|]; done.
    + rewrite publish_table. cbv zeta.
      destruct (WriteBytesToFile w _ _) eqn:Hw; [by destruct (EnvmanAdd w _ _)|].
      intros _. exists tmpDir, tr, doc. done.
  - intros (tmpDir & tr & doc & Hacc & Htmp & Hasm & Hne & Hw).
    rewrite (run_published t w tmpDir tr doc Hacc Htmp Hasm Hne), publish_table.
    cbv zeta. by rewrite Hw.
  - by_run_cases t w; try done.
    + destruct t; done.
    + intros [= ->]. apply assemble_never_publish_failure in Hasm as [|]; done.
    + rewrite publish_table. cbv zeta.
      destruct (WriteBytesToFile w _ _) eqn:Hw; [by destruct (EnvmanAdd w _ _)|].
      intros _ key value. cbn [trace fst].
      intros [Hin|Hin]%in_app_or.
      * destruct Hin as [|Hin]; [done|].
        assert (keystoreEvent (EvEnvman key value)); [|done].
        apply (assemble_event w (inputs w) tmpDir). by rewrite Hasm.
      * destruct Hin as [|[|[]]]; done.
Qed.

Lemma write_failure_witness :
  ∃ tmpDir tr doc,
    assemble (brokenWorld (Some "/tmp/scratch1") false true)
      (inputs (brokenWorld (Some "/tmp/scratch1") false true)) tmpDir = (tr, inr doc)
    ∧ WriteBytesToFile (brokenWorld (Some "/tmp/scratch1") false true)
        (GoPath.Join [tmpDir; "build.json"]) (MarshalIndent doc) = false.
Proof.
  destruct (proj1 (proj1 (write_failure_stops_the_handoff First
                            (brokenWorld (Some "/tmp/scratch1") false true))))
    as (tmpDir & tr & doc & _ & _ & Hasm & _ & Hw).
  - reflexivity.
  - exists tmpDir, tr, doc. split; [exact Hasm | exact Hw].
Defined.

(** X4.  In either text a run ends with "Failed to export
    BITRISE_CORDOVA_BUILD_CONFIGURATION" exactly when [build.json] was written
    and envman failed; the file stays written (the one file of the run), and
    the failed call was made on its path as the last thing of the run. *)
Theorem envman_failure_leaves_the_file (t : Text) (w : World) :
  (outcome (run t w) = inl (Fail PublishError) ↔
   ∃ tmpDir tr doc,
     accepted t (inputs w)
     ∧ NormalizedOSTempDirPath w "__bitrise-cordova-build-config__" = Some tmpDir
     ∧ assemble w (inputs w) tmpDir = (tr, inr doc)
     ∧ ¬ (KeystoreURL (inputs w) = "" ∧ PackageType (inputs w) = "none")
     ∧ WriteBytesToFile w (GoPath.Join [tmpDir; "build.json"]) (MarshalIndent doc) = true
     ∧ EnvmanAdd w "BITRISE_CORDOVA_BUILD_CONFIGURATION"
         (GoPath.Join [tmpDir; "build.json"]) = false)
  ∧ (outcome (run t w) = inl (Fail PublishError) →
     ∃ pth content,
       written (trace (run t w)) = [(pth, content)]
       ∧ WriteBytesToFile w pth content = true
       ∧ last (trace (run t w))
         = Some (EvEnvman "BITRISE_CORDOVA_BUILD_CONFIGURATION" pth)).
Proof.
  split; [split|].
  - by_run_cases t w; try done.
    + destruct t; done.
    + intros [= ->]. apply assemble_never_publish_failure in Hasm as [|]; done.
    + rewrite publish_table. cbv zeta.
      destruct (WriteBytesToFile w _ _) eqn:Hw; [|done].
      destruct (EnvmanAdd w _ _) eqn:He; [done|].
      intros _. exists tmpDir, tr, doc. done.
  - intros (tmpDir & tr & doc & Hacc & Htmp & Hasm & Hne & Hw & He).
    rewrite (run_published t w tmpDir tr doc Hacc Htmp Hasm Hne), publish_table.
    cbv zeta. by rewrite Hw, He.
  - by_run_cases t w; try done.
    + destruct t; done.
    + intros [= ->]. apply assemble_never_publish_failure in Hasm as [|]; done.
    + rewrite publish_table. cbv zeta.
      destruct (WriteBytesToFile w _ _) eqn:Hw; [|done].
      destruct (EnvmanAdd w _ _) eqn:He; [done|].
      intros _. exists (GoPath.Join [tmpDir; "build.json"]), (MarshalIndent doc).
      pose proof (assemble_keystoreEvents w (inputs w) tmpDir) as Hk.
      rewrite Hasm in Hk. cbn [trace fst] in Hk.
      apply keystoreEvent_projections in Hk as [Hk _].
      cbn [trace fst app]. split; [|split; [done|]].
      * change (written (EvTempDir ?x :: ?l)) with (written l).
        rewrite written_app, Hk. done.
      * rewrite app_comm_cons, last_app. done.
Qed.

Lemma envman_failure_witness :
  ∃ pth content,
    written (trace (run First (brokenWorld (Some "/tmp/scratch1") true false)))
    = [(pth, content)]
    ∧ WriteBytesToFile (brokenWorld (Some "/tmp/scratch1") true false) pth content = true
    ∧ last (trace (run First (brokenWorld (Some "/tmp/scratch1") true false)))
      = Some (EvEnvman "BITRISE_CORDOVA_BUILD_CONFIGURATION" pth).
Proof.
  apply (proj2 (envman_failure_leaves_the_file First
                  (brokenWorld (Some "/tmp/scratch1") true false))).
  reflexivity.
Defined.

(** X5.  In either text a run ends with "Failed to create tmp dir" exactly
    when the inputs pass the check of the text and
    [NormalizedOSTempDirPath] fails; the request for the directory is then
    the only thing the run did. *)
Theorem scratch_directory_failure (t : Text) (w : World) :
  (outcome (run t w) = inl (Fail TmpDirError) ↔
   accepted t (inputs w)
   ∧ NormalizedOSTempDirPath w "__bitrise-cordova-build-config__" = None)
  ∧ (outcome (run t w) = inl (Fail TmpDirError) →
     trace (run t w) = [EvTempDir "__bitrise-cordova-build-config__"]).
Proof.
  split; [split|].
  - by_run_cases t w; try done.
    + destruct t; done.
    + intros [= ->]. apply assemble_never_publish_failure in Hasm as [|]; done.
    + intros Hout%publish_outcome. by destruct Hout.
  - intros [Hacc Htmp]. by rewrite (run_no_tmpDir t w Hacc Htmp).
  - by_run_cases t w; try done.
    + destruct t; done.
    + intros [= ->]. apply assemble_never_publish_failure in Hasm as [|]; done.
    + intros Hout%publish_outcome. by destruct Hout.
Qed.

Lemma scratch_directory_failure_witness :
  trace (run Second (brokenWorld None true true))
  = [EvTempDir "__bitrise-cordova-build-config__"].
Proof.
  apply (proj2 (scratch_directory_failure Second (brokenWorld None true true))).
  reflexivity.
Defined.

(** X6.  In either text a run ends with "Failed to expand path" exactly
    when the inputs pass the check, the scratch directory is made,
    [keystore_url] starts with [file://] and [AbsPath] fails on the rest of
    it; the run has then done nothing but ask for the scratch directory. *)
Theorem path_resolution_failure (t : Text) (w : World) :
  (outcome (run t w) = inl (Fail PathResolutionError) ↔
   accepted t (inputs w)
   ∧ (∃ tmpDir,
        NormalizedOSTempDirPath w "__bitrise-cordova-build-config__" = Some tmpDir)
   ∧ KeystoreURL (inputs w) ≠ ""
   ∧ GoStrings.HasPrefix (KeystoreURL (inputs w)) "file://" = true
   ∧ AbsPath w (GoStrings.TrimPrefix (KeystoreURL (inputs w)) "file://") = None)
  ∧ (outcome (run t w) = inl (Fail PathResolutionError) →
     trace (run t w) = [EvTempDir "__bitrise-cordova-build-config__"]).
Proof.
  split; [split|].
  - by_run_cases t w; try done.
    + destruct t; done.
    + intros [= ->]. apply assemble_fails in Hasm as [(_ & _ & ? & ? & ?)|(? & _)]; [|done].
      split; [done|]. split; [by exists tmpDir|]. done.
    + intros Hout%publish_outcome. by destruct Hout.
  - intros (Hacc & (tmpDir & Htmp) & Hurl & Hpre & Habs).
    rewrite (run_assemble_failed t w tmpDir [] (Fail PathResolutionError) Hacc Htmp); [done|].
    apply assemble_fails. left. done.
  - by_run_cases t w; try done.
    + destruct t; done.
    + intros [= ->]. apply assemble_fails in Hasm as [(_ & -> & _)|(? & _)]; done.
    + intros Hout%publish_outcome. by destruct Hout.
Qed.

Lemma path_resolution_failure_witness :
  trace (run First unresolvableWorld) = [EvTempDir "__bitrise-cordova-build-config__"].
Proof.
  apply (proj2 (path_resolution_failure First unresolvableWorld)).
  reflexivity.
Defined.

(** X7.  In either text a run ends with "Failed to download keystore"
    exactly when the inputs pass the check, the scratch directory is made,
    [keystore_url] is neither empty nor a [file://] reference, and either
    [http.Get] returns an error or the copy of the body into [keystore.jks]
    does. *)
Theorem download_error_exactly_when (t : Text) (w : World) :
  outcome (run t w) = inl (Fail DownloadError) ↔
  accepted t (inputs w)
  ∧ ∃ tmpDir,
      NormalizedOSTempDirPath w "__bitrise-cordova-build-config__" = Some tmpDir
      ∧ remote (inputs w)
      ∧ (Get w (KeystoreURL (inputs w)) = None
         ∨ ∃ resp,
             Get w (KeystoreURL (inputs w)) = Some resp
             ∧ Copy w (Create w (GoPath.Join [tmpDir; "keystore.jks"]))
                 (GoPath.Join [tmpDir; "keystore.jks"]) (Body resp) = false).
Proof.
  split.
  - by_run_cases t w; try done.
    + destruct t; done.
    + intros [= ->]. apply assemble_fails in Hasm as [(? & _)|(_ & Hrem & Hwhy)]; [done|].
      split; [done|]. exists tmpDir. split; [done|]. split; [done|].
      destruct Hwhy as [[? _]|(resp & ? & ? & _)]; eauto.
    + intros Hout%publish_outcome. by destruct Hout.
  - intros (Hacc & tmpDir & Htmp & Hrem & Hwhy).
    destruct Hwhy as [Hget|(resp & Hget & Hcopy)].
    + erewrite (run_assemble_failed t w tmpDir _ (Fail DownloadError) Hacc Htmp); [done|].
      apply assemble_fails. right. split; [done|]. split; [done|]. left. done.
    + erewrite (run_assemble_failed t w tmpDir _ (Fail DownloadError) Hacc Htmp); [done|].
      apply assemble_fails. right. split; [done|]. split; [done|]. right.
      exists resp. done.
Qed.

Lemma download_error_witness :
  outcome (run Second offlineWorld) = inl (Fail DownloadError).
Proof.
  apply (proj2 (download_error_exactly_when Second offlineWorld)).
  split; [discriminate|]. exists "/tmp/scratch1".
  split; [reflexivity|]. split; [split; [discriminate | reflexivity]|].
  left. reflexivity.
Defined.

(** X8.  In either text a run ends by the [os.Exit(0)] of the empty
    document exactly when the inputs pass the check of the text, the scratch
    directory is made, [keystore_url] is empty and [package_type] is
    [none]. *)
Theorem nothing_to_generate_exactly_when (t : Text) (w : World) :
  outcome (run t w) = inl NothingToGenerate ↔
  accepted t (inputs w)
  ∧ (∃ tmpDir, NormalizedOSTempDirPath w "__bitrise-cordova-build-config__" = Some tmpDir)
  ∧ KeystoreURL (inputs w) = ""
  ∧ PackageType (inputs w) = "none".
Proof.
  split.
  - by_run_cases t w; try done.
    + intros [= ->]. apply assemble_never_publish_failure in Hasm as [|]; done.
    + intros _. destruct Hempty. split; [done|]. split; [by exists tmpDir|]. done.
    + rewrite publish_table. cbv zeta.
      destruct (WriteBytesToFile w _ _); [destruct (EnvmanAdd w _ _)|]; done.
  - intros (Hacc & (tmpDir & Htmp) & Hurl & Hpt).
    rewrite (run_accepted t w Hacc).
    unfold afterInputs, tmpDirPath, assemble, androidBuildConfig, iosBuildConfig.
    rewrite Htmp, Hurl, Hpt. done.
Qed.

Lemma nothing_to_generate_exactly_witness :
  accepted Second (inputs stagingWorld)
  ∧ KeystoreURL (inputs stagingWorld) = ""
  ∧ PackageType (inputs stagingWorld) = "none".
Proof.
  destruct (proj1 (nothing_to_generate_exactly_when Second stagingWorld))
    as (Hacc & _ & Hurl & Hpt).
  - reflexivity.
  - split; [exact Hacc|]. split; [exact Hurl | exact Hpt].
Defined.

(** X9.  When [validate] returns an error it is under the name of the
    first field that fails: [Configuration] when the configuration is none
    of [release] and [debug], else [PackageType], whose value is then none of
    the five package types.  The error says that the value is not specified
    when it is empty, and otherwise names the value and the values
    allowed. *)
Theorem validate_reports_the_first_failing_field (configs : ConfigsModel.t)
    (name : string) (err : V1.InputError) :
  V1.validate configs = Some (name, err) →
  (name = "Configuration"
   ∧ (Configuration configs ∉ ["release"; "debug"])
   ∧ err = (if decide (Configuration configs = "") then V1.NotSpecified
            else V1.InvalidParameter (Configuration configs) ["release"; "debug"]))
  ∨ (name = "PackageType"
     ∧ Configuration configs ∈ ["release"; "debug"]
     ∧ (PackageType configs ∉ ["none"; "development"; "enterprise"; "ad-hoc"; "app-store"])
     ∧ err = (if decide (PackageType configs = "") then V1.NotSpecified
              else V1.InvalidParameter (PackageType configs)
                     ["none"; "development"; "enterprise"; "ad-hoc"; "app-store"])).
Proof.
  unfold V1.validate, V1.ValidateWithOptions.
  destruct (decide (Configuration configs = "")) as [Hc|Hc].
  { intros [= <- <-]. left. rewrite Hc. split; [done|]. split; [|done].
    set_solver. }
  destruct (decide (Configuration configs ∈ _)) as [Hin|Hin].
  2:{ intros [= <- <-]. left. done. }
  destruct (decide (PackageType configs = "")) as [Hp|Hp].
  { intros [= <- <-]. right. rewrite Hp. split; [done|]. split; [done|]. split; [|done].
    set_solver. }
  destruct (decide (PackageType configs ∈ _)) as [Hin'|Hin']; [done|].
  intros [= <- <-]. right. done.
Qed.

Lemma validate_reports_witness :
  V1.validate (inputs stagingWorld)
  = Some ("Configuration", V1.InvalidParameter "staging" ["release"; "debug"]).
Proof.
  destruct (validate_reports_the_first_failing_field (inputs stagingWorld)
              "Configuration" (V1.InvalidParameter "staging" ["release"; "debug"]))
    as [(_ & _ & _)|(Hname & _)].
  - reflexivity.
  - reflexivity.
  - discriminate Hname.
Defined.

(** X11.  The masking of lines 402-407 leaves an Android entry with the
    same members in print (a password that is empty stays absent, one that is
    not stays present), leaves [keystore] and [alias] as they were, and
    masking a masked entry changes nothing. *)
Theorem masking_keeps_the_shape_of_the_entry (a : AndroidBuildConfigurationItem.t) :
  keys (AndroidBuildConfigurationItem.encode (V2.maskPasswords a))
  = keys (AndroidBuildConfigurationItem.encode a)
  ∧ V2.maskPasswords (V2.maskPasswords a) = V2.maskPasswords a
  ∧ JSON.member "keystore" (AndroidBuildConfigurationItem.encode (V2.maskPasswords a))
    = JSON.member "keystore" (AndroidBuildConfigurationItem.encode a)
  ∧ JSON.member "alias" (AndroidBuildConfigurationItem.encode (V2.maskPasswords a))
    = JSON.member "alias" (AndroidBuildConfigurationItem.encode a).
Proof.
  split; [|split; [|split]].
  - rewrite maskPasswords_fields. unfold AndroidBuildConfigurationItem.encode.
    rewrite !keys_encodeStruct. destruct a as [k sp al pw].
    cbn [AndroidBuildConfigurationItem.Keystore AndroidBuildConfigurationItem.StorePassword
         AndroidBuildConfigurationItem.Alias AndroidBuildConfigurationItem.Password].
    rewrite !filter_cons, filter_nil. cbn [snd].
    pose proof (hidden_empty sp). pose proof (hidden_empty pw).
    repeat case_decide; naive_solver.
  - rewrite !maskPasswords_fields.
    cbn [AndroidBuildConfigurationItem.Keystore AndroidBuildConfigurationItem.StorePassword
         AndroidBuildConfigurationItem.Alias AndroidBuildConfigurationItem.Password].
    by rewrite !hidden_hidden.
  - destruct (android_fields (V2.maskPasswords a)) as (-> & _).
    destruct (android_fields a) as (-> & _). by rewrite maskPasswords_fields.
  - destruct (android_fields (V2.maskPasswords a)) as (_ & _ & -> & _).
    destruct (android_fields a) as (_ & _ & -> & _). by rewrite maskPasswords_fields.
Qed.

(** X12.  When the masking block of the second text runs (the Android map
    has an entry for the configuration), the document it marshals for the
    print has the iOS map and the keys of the Android map of the assembled
    one; the entry of the configuration is the masked one and every other
    entry is as it was. *)
Theorem masking_touches_one_entry (configs : ConfigsModel.t)
    (doc doc' : BuildConfiguration.t) :
  V2.masked configs doc = Some doc' →
  BuildConfiguration.IOS doc' = BuildConfiguration.IOS doc
  ∧ dom (BuildConfiguration.Android doc') = dom (BuildConfiguration.Android doc)
  ∧ BuildConfiguration.Android doc' !! Configuration configs
    = V2.maskPasswords <$> BuildConfiguration.Android doc !! Configuration configs
  ∧ ∀ k, k ≠ Configuration configs →
         BuildConfiguration.Android doc' !! k = BuildConfiguration.Android doc !! k.
Proof.
  unfold V2.masked.
  destruct (BuildConfiguration.Android doc !! Configuration configs) as [a|] eqn:Ha; [|done].
  intros [= <-]. cbn [BuildConfiguration.Android BuildConfiguration.IOS].
  split; [done|]. split; [|split].
  - rewrite dom_insert_L. apply elem_of_dom_2 in Ha. set_solver.
  - by rewrite lookup_insert_eq.
  - intros k Hk. by rewrite lookup_insert_ne.
Qed.

Lemma masking_touches_one_entry_witness :
  ∃ doc',
    V2.masked (inputs emptyWorld) twoBuilds = Some doc'
    ∧ BuildConfiguration.Android doc' !! "debug"
      = BuildConfiguration.Android twoBuilds !! "debug".
Proof.
  exists (default twoBuilds (V2.masked (inputs emptyWorld) twoBuilds)).
  assert (V2.masked (inputs emptyWorld) twoBuilds
          = Some (default twoBuilds (V2.masked (inputs emptyWorld) twoBuilds))) as Hm
    by (vm_compute; reflexivity).
  split; [exact Hm|].
  apply (masking_touches_one_entry (inputs emptyWorld) twoBuilds _ Hm).
  discriminate.
Defined.

(** X13.  The members of the marshalled document come in the order of the
    struct declarations: [android] before [ios]; [keystore],
    [storePassword], [alias], [password]; [codeSignIdentity],
    [provisioningProfile], [developmentTeam], [packageType]; some may be
    missing, none is repeated or moved.  The members of a section are the
    keys of its map, in ascending order. *)
Theorem members_come_in_declared_order
    (doc : BuildConfiguration.t) (a : AndroidBuildConfigurationItem.t)
    (i : IOSBuildConfigurationItem.t) :
  keys (BuildConfiguration.encode doc) `sublist_of` ["android"; "ios"]
  ∧ keys (AndroidBuildConfigurationItem.encode a)
      `sublist_of` ["keystore"; "storePassword"; "alias"; "password"]
  ∧ keys (IOSBuildConfigurationItem.encode i)
      `sublist_of` ["codeSignIdentity"; "provisioningProfile"; "developmentTeam";
                    "packageType"]
  ∧ (∀ section, JSON.member "android" (BuildConfiguration.encode doc) = Some section →
       Sorted (λ k k' : string, String.leb k k' : Prop) (keys section)
       ∧ keys section ≡ₚ (map_to_list (BuildConfiguration.Android doc)).*1)
  ∧ (∀ section, JSON.member "ios" (BuildConfiguration.encode doc) = Some section →
       Sorted (λ k k' : string, String.leb k k' : Prop) (keys section)
       ∧ keys section ≡ₚ (map_to_list (BuildConfiguration.IOS doc)).*1).
Proof.
  assert (∀ V (enc : V → JSON.json) (m : gmap string V),
            Sorted (λ k k' : string, String.leb k k' : Prop) (keys (JSON.encodeMap enc m))
            ∧ keys (JSON.encodeMap enc m) ≡ₚ (map_to_list m).*1) as Hmap.
  { intros V enc m. unfold JSON.encodeMap, keys. split.
    - apply Sorted_fmap_key, Sorted_merge_sort; apply _.
    - rewrite <- list_fmap_compose.
      rewrite (merge_sort_Permutation _ (map_to_list m)). done. }
  split; [|split; [|split; [|split]]].
  - unfold BuildConfiguration.encode, JSON.mapField, keys.
    repeat case_decide; cbn [app fmap list_fmap fst];
      repeat first [ apply sublist_nil | apply sublist_skip | apply sublist_cons ].
  - unfold AndroidBuildConfigurationItem.encode. rewrite keys_encodeStruct.
    apply (filter_sublist_fst
             [("keystore", _); ("storePassword", _); ("alias", _); ("password", _)] _).
  - unfold IOSBuildConfigurationItem.encode. rewrite keys_encodeStruct.
    apply (filter_sublist_fst
             [("codeSignIdentity", _); ("provisioningProfile", _); ("developmentTeam", _);
              ("packageType", _)] _).
  - unfold BuildConfiguration.encode, JSON.mapField, JSON.member.
    intros section. repeat case_decide; cbn [app JSON.lookupMember];
      repeat case_decide; try done; intros [= <-]; apply Hmap.
  - unfold BuildConfiguration.encode, JSON.mapField, JSON.member.
    intros section. repeat case_decide; cbn [app JSON.lookupMember];
      repeat case_decide; try done; intros [= <-]; apply Hmap.
Qed.

Lemma members_order_witness :
  keys (BuildConfiguration.encode twoBuilds) `sublist_of` ["android"; "ios"].
Proof.
  exact (proj1 (members_come_in_declared_order twoBuilds
                  {| AndroidBuildConfigurationItem.Keystore := "/k.jks";
                     AndroidBuildConfigurationItem.StorePassword := "";
                     AndroidBuildConfigurationItem.Alias := "key0";
                     AndroidBuildConfigurationItem.Password := "" |}
                  {| IOSBuildConfigurationItem.CodeSignIdentity := "";
                     IOSBuildConfigurationItem.ProvisioningProfile := "";
                     IOSBuildConfigurationItem.DevelopmentTeam := "TEAM";
                     IOSBuildConfigurationItem.PackageType := "development" |})).
Defined.

(** X14.  Inputs that [validate] accepts are accepted by the second text,
    which then ends as the first does and does the same things in the same
    order; the two runs differ at most in the bytes they print. *)
Theorem second_text_acts_as_the_first (w : World) :
  accepted First (inputs w) →
  accepted Second (inputs w)
  ∧ outcome (run Second w) = outcome (run First w)
  ∧ effects (trace (run Second w)) = effects (trace (run First w))
  ∧ List.length (trace (run Second w)) = List.length (trace (run First w)).
Proof.
  intros Hacc1.
  assert (accepted Second (inputs w)) as Hacc2
    by (apply validInputs_accepted; by apply validate_None).
  split; [done|].
  destruct (NormalizedOSTempDirPath w "__bitrise-cordova-build-config__")
    as [tmpDir|] eqn:Htmp.
  2:{ by rewrite (run_no_tmpDir First w Hacc1 Htmp), (run_no_tmpDir Second w Hacc2 Htmp). }
  rewrite (run_rest First w tmpDir Hacc1 Htmp), (run_rest Second w tmpDir Hacc2 Htmp).
  destruct (assemble w (inputs w) tmpDir) as [tr [e|doc]]; [done|].
  case_decide; [done|]. cbn [outcome trace fst snd].
  split; [done|]. split.
  - rewrite !effects_app. done.
  - rewrite !length_app. done.
Qed.

Lemma second_text_witness :
  outcome (run Second (servedWorld "/tmp/scratch1"))
  = outcome (run First (servedWorld "/tmp/scratch1")).
Proof.
  apply (second_text_acts_as_the_first (servedWorld "/tmp/scratch1")).
  reflexivity.
Defined.

(** X15.  In either text a run is the same on two machines that give the
    same nine inputs and answer every call alike, responses to [http.Get]
    compared by their bodies only: neither the status of a response nor any
    other variable of the environment has a part in the run. *)
Theorem status_code_is_never_read (t : Text) (w1 w2 : World) :
  sameButStatus w1 w2 → run t w1 = run t w2.
Proof.
  intros (Henv & Htmp & Habs & Hcreate & Hget & Hcopy & Hwrite & Henvman).
  assert (inputs w1 = inputs w2) as Hin.
  { unfold inputs, V1.createConfigsModelFromEnvs.
    f_equal; apply Henv; unfold inputNames; set_solver. }
  assert (∀ tmpDir, assemble w1 (inputs w1) tmpDir = assemble w2 (inputs w2) tmpDir) as Hasm.
  { intros tmpDir. rewrite !assemble_table, <- Hin. cbv zeta.
    case_decide; [done|]. destruct (GoStrings.HasPrefix _ _); [by rewrite Habs|].
    specialize (Hget (KeystoreURL (inputs w1))).
    destruct (Get w1 _) as [r1|], (Get w2 _) as [r2|]; try done.
    injection Hget as Hbody. by rewrite Hbody, Hcreate, Hcopy. }
  assert (∀ tmpDir bytes, publish w1 tmpDir bytes = publish w2 tmpDir bytes) as Hpub.
  { intros tmpDir bytes. rewrite !publish_table. cbv zeta. by rewrite Hwrite, Henvman. }
  destruct (accepted_dec t (inputs w1)) as [Hacc|Hrej].
  2:{ rewrite (run_rejected t w1 Hrej). rewrite Hin in Hrej.
      by rewrite (run_rejected t w2 Hrej). }
  pose proof Hacc as Hacc'. rewrite Hin in Hacc'.
  destruct (NormalizedOSTempDirPath w1 "__bitrise-cordova-build-config__")
    as [tmpDir|] eqn:Htmp1.
  2:{ rewrite (run_no_tmpDir t w1 Hacc Htmp1). rewrite Htmp in Htmp1.
      by rewrite (run_no_tmpDir t w2 Hacc' Htmp1). }
  rewrite (run_rest t w1 tmpDir Hacc Htmp1). rewrite Htmp in Htmp1.
  rewrite (run_rest t w2 tmpDir Hacc' Htmp1), Hasm.
  destruct (assemble w2 (inputs w2) tmpDir) as [tr [e|doc]]; [done|].
  by rewrite Hpub, Hin.
Qed.

Lemma status_code_witness :
  run First notFoundWorld = run First errorPageWorld.
Proof.
  apply (status_code_is_never_read First notFoundWorld errorPageWorld).
  repeat split; reflexivity.
Defined.

(** X16.  When the scratch directory is an absolute path in its shortest
    form, the keystore is created and filled at that path followed by
    [/keystore.jks], the document is written at that path followed by
    [/build.json], and that is the value handed to envman under
    [BITRISE_CORDOVA_BUILD_CONFIGURATION], in either text. *)
Theorem files_lie_directly_in_the_scratch_directory
    (t : Text) (w : World) (tmpDir : string) (e : Event) :
  cleanAbsolute tmpDir →
  NormalizedOSTempDirPath w "__bitrise-cordova-build-config__" = Some tmpDir →
  In e (trace (run t w)) →
  placed tmpDir e.
Proof.
  intros Hclean Htmp [->|(tmpDir' & Htmp' & He)]%run_events; [done|].
  assert (tmpDir' = tmpDir) as -> by congruence.
  assert (plainName "keystore.jks") as Hk by (repeat split; discriminate).
  assert (plainName "build.json") as Hb by (repeat split; discriminate).
  rewrite (Join_in_cleanAbsolute tmpDir "keystore.jks" Hclean Hk) in He.
  rewrite (Join_in_cleanAbsolute tmpDir "build.json" Hclean Hb) in He.
  by destruct e.
Qed.

Lemma files_lie_witness :
  placed "/tmp/scratch1"
    (EvCopy (GoPath.Join ["/tmp/scratch1"; "keystore.jks"]) "keystore bytes").
Proof.
  apply (files_lie_directly_in_the_scratch_directory First (servedWorld "/tmp/scratch1")).
  - exists "tmp", ["scratch1"]. split; [|reflexivity].
    repeat constructor; discriminate.
  - reflexivity.
  - in_trace.
Defined.

(** X17.  With a configuration and nothing else but, at most, the
    passwords and the alias (no [package_type], no iOS input, no
    [keystore_url]), the first text ends with "Issue with input" before it
    does anything, while the second prints and writes a document whose [ios]
    section has an empty entry under the configuration. *)
Theorem unset_package_type_gives_an_empty_ios_entry (w : World) (tmpDir : string) :
  let configs := inputs w in
  let bytes :=
    JSON.render 0
      (JSON.JObject
         [("ios", JSON.JObject [(Configuration configs, JSON.JObject [])])]) in
  Configuration configs ≠ "" →
  fields configs = [Configuration configs; ""; ""; ""; ""; ""; KeystorePassword configs;
                    KeystoreAlias configs; PrivateKeyPassword configs] →
  NormalizedOSTempDirPath w "__bitrise-cordova-build-config__" = Some tmpDir →
  run First w = ([], inl (Fail InvalidInput))
  ∧ run Second w
    = (EvTempDir "__bitrise-cordova-build-config__" :: EvContent bytes
         :: trace (publish w tmpDir bytes),
       outcome (publish w tmpDir bytes)).
Proof.
  intros configs bytes Hcfg Hfields Htmp.
  assert (DevelopmentTeam configs = "" ∧ CodeSignIdentity configs = ""
          ∧ ProvisioningProfile configs = "" ∧ PackageType configs = ""
          ∧ KeystoreURL configs = "") as (Hteam & Hident & Hprof & Hpt & Hurl)
    by (injection Hfields as ? ? ? ? ?; done).
  clear Hfields. split.
  - apply (run_rejected First w). cbn [accepted]. rewrite validate_None.
    intros [_ Hin]. fold configs in Hin. rewrite Hpt in Hin. set_solver.
  - rewrite (run_rest Second w tmpDir Hcfg Htmp), assemble_table. cbv zeta.
    fold configs. destruct (decide (KeystoreURL configs = "")) as [_|]; [|done].
    unfold iosBuildConfig.
    destruct (decide (PackageType configs ≠ "none")) as [_|Hnone];
      [|destruct Hnone; rewrite Hpt; discriminate].
    cbn [BuildConfiguration.Android BuildConfiguration.IOS].
    rewrite map_size_singleton.
    destruct (decide (size (∅ : gmap string AndroidBuildConfigurationItem.t) = 0 ∧ 1 = 0))
      as [[_ ?]|_]; [done|].
    rewrite shown_without_android by done.
    assert (MarshalIndent
              {| BuildConfiguration.Android := ∅;
                 BuildConfiguration.IOS :=
                   {[ Configuration configs :=
                        {| IOSBuildConfigurationItem.CodeSignIdentity := CodeSignIdentity configs;
                           IOSBuildConfigurationItem.ProvisioningProfile :=
                             ProvisioningProfile configs;
                           IOSBuildConfigurationItem.DevelopmentTeam := DevelopmentTeam configs;
                           IOSBuildConfigurationItem.PackageType := PackageType configs |} ]} |}
            = bytes) as ->; [|done].
    unfold MarshalIndent, BuildConfiguration.encode, bytes.
    cbn [BuildConfiguration.Android BuildConfiguration.IOS].
    rewrite mapField_empty, mapField_singleton.
    rewrite Hteam, Hident, Hprof, Hpt. done.
Qed.

Lemma unset_package_type_witness :
  run First unsetPackageTypeWorld = ([], inl (Fail InvalidInput))
  ∧ outcome (run Second unsetPackageTypeWorld) = inr tt.
Proof.
  destruct (unset_package_type_gives_an_empty_ios_entry unsetPackageTypeWorld "/tmp/scratch1")
    as [H1 H2].
  - discriminate.
  - reflexivity.
  - reflexivity.
  - split; [exact H1|]. rewrite H2. reflexivity.
Defined.
